(** * ts-upgrade GitHub functions: the run orchestrator and the status query

    A shallow embedding of the three Azure functions of the repository:

    - the orchestrator with a status ledger ([Orchestrator.main], from the
      function whose [main] takes an optional [id] and writes to the
      [upgradeProcess] table),
    - the older orchestrator without a ledger ([DoUpgrade.main], from
      [doUpgrade/index.ts]),
    - the status query ([StatusQuery.httpTrigger]).

    The code is asynchronous straight-line JavaScript that talks to three
    external collaborators (GitHub through Octokit, isomorphic-git and the
    Azure table service).  It is embedded in a state-and-exception monad:
    the state holds the tables of the storage account, the sequence of
    collaborator calls issued so far and the lines given to [context.log];
    an exception is a rejected promise or a JavaScript [TypeError].  What the collaborators
    answer is fixed by a [World]: for each call site of the source whether
    the call rejects, and the data the successful calls return. *)

From stdpp Require Import gmap strings list fin_maps sorting.
From Stdlib Require Import ZArith.

Local Open Scope Z_scope.
Local Open Scope string_scope.

(** ** The status enumeration *)

Module Status.

(** [enum Status] of the source; the members after [auth] take the
    successive ordinals, as TypeScript numbers them. *)
Inductive t : Set :=
| error | auth | fork | clone | branch | checkout | upgrade
| add | commit | push | star | pr | done.

Definition toZ (s : t) : Z :=
  match s with
  | error => -1
  | auth => 0
  | fork => 1
  | clone => 2
  | branch => 3
  | checkout => 4
  | upgrade => 5
  | add => 6
  | commit => 7
  | push => 8
  | star => 9
  | pr => 10
  | done => 11
  end.

#[global] Instance eq_dec : EqDecision t.
Proof. solve_decision. Defined.

(** The members in declaration order, without [error]. *)
Definition progression : list t :=
  [auth; fork; clone; branch; checkout; upgrade; add; commit; push; star; pr; done].

End Status.

(** ** Table entities and the ledger table *)

(** A property built by [azure.TableUtilities.entityGenerator]. *)
Inductive EntityProperty : Set :=
| EdmString (s : string)
| EdmInt32 (n : Z).

#[global] Instance EntityProperty_eq_dec : EqDecision EntityProperty.
Proof. solve_decision. Defined.

Module entGen.
Definition String (s : string) : EntityProperty := EdmString s.
Definition Int32 (n : Z) : EntityProperty := EdmInt32 n.
End entGen.

(** An entity is a JavaScript object literal: property name to property. *)
Abbreviation Entity := (gmap string EntityProperty).

(** A table holds at most one entity per (PartitionKey, RowKey). *)
Abbreviation Table := (gmap (string * string) Entity).

Definition entityKey (e : Entity) : option (string * string) :=
  match e !! "PartitionKey", e !! "RowKey" with
  | Some (EdmString pk), Some (EdmString rk) => Some (pk, rk)
  | _, _ => None
  end.

(** The table service's insert-or-replace: the stored entity becomes
    exactly the given one.  [None] when the entity carries no key. *)
Definition storeReplace (t : Table) (e : Entity) : option Table :=
  match entityKey e with
  | Some k => Some (<[k := e]> t)
  | None => None
  end.

(** The table service's insert-or-merge: the given properties overwrite
    the stored ones of the same name, the other stored properties stay. *)
Definition mergeRow (t : Table) (k : string * string) (e : Entity) : Table :=
  <[k := e ∪ default ∅ (t !! k)]> t.

Definition storeMerge (t : Table) (e : Entity) : option Table :=
  match entityKey e with
  | Some k => Some (mergeRow t k e)
  | None => None
  end.

(** The order in which the table service returns entities: ascending
    PartitionKey (the RowKey is the same for all the entities a query
    with [RowKey eq id] matches). *)
Definition partitionKeyLe (a b : string * string * Entity) : Prop :=
  String.leb a.1.1 b.1.1 = true.

#[global] Instance partitionKeyLe_dec : RelDecision partitionKeyLe.
Proof. intros a b. unfold partitionKeyLe. apply _. Defined.

(** The table service's query with the filter [RowKey eq id]. *)
Definition storeQueryRowKey (t : Table) (rowKey : string) : list Entity :=
  (merge_sort partitionKeyLe
     (filter (λ kv : string * string * Entity, kv.1.2 = rowKey) (map_to_list t))).*2.

(** The tables of the storage account, by name. *)
Abbreviation TableStore := (gmap string Table).

(** The table service's create-table-if-not-exists. *)
Definition storeCreateTableIfNotExists (s : TableStore) (tableName : string)
  : TableStore :=
  match s !! tableName with
  | Some _ => s
  | None => <[tableName := ∅]> s
  end.

(** The rows of a table of the account, none when there is no such table. *)
Definition rowsOf (s : TableStore) (tableName : string) : Table :=
  default ∅ (s !! tableName).

(** Reading one property of the row of a run. *)
Definition rowProperty (t : Table) (owner id : string) (name : string)
  : option EntityProperty :=
  match t !! (owner, id) with
  | Some e => e !! name
  | None => None
  end.

(** ** Collaborator calls, exceptions and the monad *)

(** What a [throw] or a rejected promise carries. *)
Inductive Exn : Set :=
| Failed (reason : string)
| TypeError (message : string).

(** The error of the table service for an operation on a table that was
    never created. *)
Definition tableNotFound : Exn := Failed "TableNotFound".

#[global] Instance Exn_eq_dec : EqDecision Exn.
Proof. solve_decision. Defined.

(** The calls into the external collaborators, with the arguments the
    source passes. *)
Inductive Call : Type :=
| TableCreateIfNotExists (tableName : string)
| TableInsertOrReplace (tableName : string) (entry : Entity)
| TableInsertOrMerge (tableName : string) (entry : Entity)
| TableQueryEntities (tableName : string) (rowKey : string)
| OctokitNew (auth : string)
| ReposCreateFork (owner repo : string)
| GitClone (dir url : string) (singleBranch : bool) (depth : Z)
| GitCheckout (dir ref : string)
| GitLog (dir : string) (depth : Z) (ref : string)
| GitBranch (dir ref : string)
| UpgradeFromProject (projectPath : string) (target : Z)
| GitAdd (dir filepath : string)
| GitCommit (dir authorName authorEmail message : string)
| GitPush (dir remote ref : string) (force : bool) (username : string)
| ActivityStarRepo (owner repo : string)
| PullsCreate (owner repo title base head : string).

(** The places of the source where a collaborator is called.  Every one
    is executed at most once in a run, so an answer per site describes an
    arbitrary environment. *)
Inductive Site : Set :=
| AtCreateTable
| AtInitRecord
| AtStatus (s : Status.t)
| AtErrorStatus
| AtQuery
| AtAuth
| AtFork
| AtClone
| AtCheckoutBase
| AtLog
| AtBranch
| AtCheckout
| AtUpgrade
| AtAdd
| AtCommit
| AtPush
| AtStar
| AtPullRequest.

#[global] Instance Site_eq_dec : EqDecision Site.
Proof. solve_decision. Defined.

Record Event : Type := Ev { ev_site : Site; ev_call : Call }.

Record CommitObject : Set := { tree : string }.
Record ReadCommitResult : Set := { oid : string; commit : CommitObject }.
Record ForkData : Set := { clone_url : string; html_url : string }.

(** The environment of one run. *)
Record World : Type := {
  rejects : Site -> option Exn;     (* does the call at this site reject *)
  forkData : ForkData;              (* [forkResult.data] *)
  commits : list ReadCommitResult;  (* what [git.log] resolves to *)
  pullUrl : string;                 (* [prResult.data.url] *)
  uuid_v4 : string;                 (* [uuid.v4()] *)
  tmpdir : string;                  (* [os.tmpdir()] *)
  path_join : string -> string -> string;  (* [path.join] of two segments *)
  Latest : Z;                       (* [upgrade.TypeScriptVersion.Latest] *)
  v3_8 : Z                          (* [upgrade.TypeScriptVersion.v3_8] *)
}.

Record State : Type := {
  tables : TableStore;
  trace : list Event;
  console : list string
}.

Inductive Outcome (A : Type) : Type :=
| Return (a : A)
| Throw (e : Exn).
Arguments Return {A} a.
Arguments Throw {A} e.

Definition M (A : Type) : Type := State -> Outcome A * State.

Definition ret {A} (a : A) : M A := fun st => (Return a, st).

Definition throw {A} (e : Exn) : M A := fun st => (Throw e, st).

Definition bind {A B} (m : M A) (k : A -> M B) : M B :=
  fun st =>
    match m st with
    | (Return a, st') => k a st'
    | (Throw e, st') => (Throw e, st')
    end.

(** [try { body } catch (e) { handler e }]: the effects of the body up to
    the throw stay. *)
Definition tryCatch {A} (body : M A) (handler : Exn -> M A) : M A :=
  fun st =>
    match body st with
    | (Return a, st') => (Return a, st')
    | (Throw e, st') => handler e st'
    end.

Declare Scope js_scope.
Delimit Scope js_scope with js.
Notation "x <- c1 ;; c2" := (bind c1 (fun x => c2))
  (at level 100, c1 at next level, right associativity) : js_scope.
Notation "c1 ;; c2" := (bind c1 (fun _ => c2))
  (at level 100, right associativity) : js_scope.
Local Open Scope js_scope.

Definition emit (s : Site) (c : Call) (st : State) : State :=
  {| tables := tables st; trace := trace st ++ [Ev s c]; console := console st |}.

Definition setTables (s : TableStore) (st : State) : State :=
  {| tables := s; trace := trace st; console := console st |}.

(** [context.log]. *)
Definition log (line : string) : M unit :=
  fun st =>
    (Return tt,
     {| tables := tables st; trace := trace st; console := console st ++ [line] |}).

(** JavaScript truthiness of an optional string: [undefined] and the empty
    string are falsy. *)
Definition truthy (s : option string) : option string :=
  match s with
  | Some EmptyString => None
  | Some v => Some v
  | None => None
  end.

(** [if (s) { body }] for an optional string [s]. *)
Definition ifTruthy (s : option string) (body : string -> M unit) : M unit :=
  match truthy s with
  | Some v => body v
  | None => ret tt
  end.

Section Collaborators.

Context (w : World).

(** An awaited collaborator call without a result the code uses. *)
Definition await (s : Site) (c : Call) : M unit :=
  fun st =>
    match rejects w s with
    | Some e => (Throw e, emit s c st)
    | None => (Return tt, emit s c st)
    end.

(** An awaited write to a table: a rejected write leaves the table as it
    was, and a write to a table that does not exist fails. *)
Definition awaitWrite (s : Site) (c : Call) (tableName : string)
    (effect : Table -> option Table) : M unit :=
  fun st =>
    match rejects w s with
    | Some e => (Throw e, emit s c st)
    | None =>
        match tables st !! tableName with
        | None => (Throw tableNotFound, emit s c st)
        | Some t =>
            match effect t with
            | Some t' =>
                (Return tt, setTables (<[tableName := t']> (tables st)) (emit s c st))
            | None => (Throw (Failed "entity without keys"), emit s c st)
            end
        end
    end.

Definition createTableIfNotExists (tableName : string) : M unit :=
  fun st =>
    match rejects w AtCreateTable with
    | Some e => (Throw e, emit AtCreateTable (TableCreateIfNotExists tableName) st)
    | None =>
        (Return tt,
         setTables (storeCreateTableIfNotExists (tables st) tableName)
           (emit AtCreateTable (TableCreateIfNotExists tableName) st))
    end.

Definition insertOrReplaceEntity (tableName : string) (entry : Entity) : M unit :=
  awaitWrite AtInitRecord (TableInsertOrReplace tableName entry) tableName
    (fun t => storeReplace t entry).

Definition insertOrMergeEntity (s : Site) (tableName : string) (entry : Entity)
  : M unit :=
  awaitWrite s (TableInsertOrMerge tableName entry) tableName
    (fun t => storeMerge t entry).

Definition statusEntry (id owner : string) (status : Status.t) : Entity :=
  {[ "RowKey" := entGen.String id;
     "PartitionKey" := entGen.String owner;
     "status" := entGen.Int32 (Status.toZ status);
     "lastStatus" := entGen.Int32 (Status.toZ status) ]}.

Definition statusEntryWithoutLast (id owner : string) (status : Status.t) : Entity :=
  {[ "RowKey" := entGen.String id;
     "PartitionKey" := entGen.String owner;
     "status" := entGen.Int32 (Status.toZ status) ]}.

Definition insertOrMergeStatus (tableName id owner : string) (status : Status.t)
  : M unit :=
  let entry := statusEntry id owner status in
  insertOrMergeEntity (AtStatus status) tableName entry.

Definition insertOrMergeStatusWithoutLast (tableName id owner : string)
    (status : Status.t) : M unit :=
  let entry := statusEntryWithoutLast id owner status in
  insertOrMergeEntity AtErrorStatus tableName entry.

End Collaborators.

(** ** The orchestrator with a ledger *)

Module Orchestrator.

Record Options : Type := {
  authToken : string;
  connectionString : string;
  owner : string;
  repo : string;
  id : option string;
  branch : option string;
  version : option Z
}.

Definition tableName : string := "upgradeProcess".

(** The name of the working branch: [`ts-upgrade-at-${sha.slice(0, 8)}`].
    [sha] is [commits[0]?.commit.tree], undefined for an empty log, and
    [slice] on undefined throws. *)
Definition sha (commits : list ReadCommitResult) : option string :=
  match commits with
  | c :: _ => Some (tree (commit c))
  | [] => None
  end.

Definition typeErrorOfSlice : Exn :=
  TypeError "Cannot read property 'slice' of undefined".

Definition slice_0_8 (sha : option string) : M string :=
  match sha with
  | Some s => ret (String.substring 0 8 s)
  | None => throw typeErrorOfSlice
  end.

Definition showSha (sha : option string) : string :=
  match sha with
  | Some s => s
  | None => "undefined"
  end.

Section Main.

Context (w : World) (options : Options).

Let id_ : option string := id options.
Let authToken_ : string := authToken options.
Let owner_ : string := owner options.
Let repo_ : string := repo options.
Let branch_ : string := default "master" (branch options).
Let version_ : Z := default (Latest w) (version options).

(** The record written when the run starts. *)
Definition entry (id : string) : Entity :=
  {[ "PartitionKey" := entGen.String owner_;
     "RowKey" := entGen.String id;
     "owner" := entGen.String owner_;
     "repo" := entGen.String repo_;
     "branch" := entGen.String branch_;
     "version" := entGen.Int32 version_;
     "status" := entGen.Int32 (Status.toZ Status.auth);
     "lastStatus" := entGen.Int32 (Status.toZ Status.auth) ]}.

(** [if (id) { ... }] before the [try].  The table client that
    [azure.createTableService(connectionString)] builds just before is
    the [World]: building it is taken to succeed and is no event of the
    run. *)
Definition main_init : M unit :=
  ifTruthy id_ (fun id =>
    createTableIfNotExists w tableName ;;
    insertOrReplaceEntity w tableName (entry id)).

(** The body of the [try]. *)
Definition main_try : M string :=
  await w AtAuth (OctokitNew authToken_) ;;
  log "Auth succeed" ;;
  ifTruthy id_ (fun id =>
    insertOrMergeStatus w tableName id owner_ Status.fork) ;;

  await w AtFork (ReposCreateFork owner_ repo_) ;;
  let forkResult := forkData w in
  log "Fork succeed" ;;
  ifTruthy id_ (fun id =>
    insertOrMergeStatus w tableName id owner_ Status.clone) ;;

  let uid := uuid_v4 w in
  let tempPath := path_join w (tmpdir w) uid in
  let dir := tempPath in
  log ("clone " +:+ html_url forkResult +:+ " into " +:+ tempPath +:+ " started") ;;

  await w AtClone (GitClone dir (clone_url forkResult) true 1) ;;
  log ("clone " +:+ html_url forkResult +:+ " into " +:+ tempPath +:+ " succeed") ;;
  ifTruthy id_ (fun id =>
    insertOrMergeStatus w tableName id owner_ Status.branch) ;;

  ifTruthy (Some branch_) (fun _ =>
    await w AtCheckoutBase (GitCheckout dir branch_) ;;
    log ("checkout into " +:+ branch_)) ;;

  await w AtLog (GitLog dir 1 branch_) ;;
  let sha := sha (commits w) in
  log ("current commit is " +:+ showSha sha) ;;

  hash8 <- slice_0_8 sha ;;
  let branchName := "ts-upgrade-at-" +:+ hash8 in

  await w AtBranch (GitBranch dir branchName) ;;
  log ("create branch " +:+ branchName) ;;
  ifTruthy id_ (fun id =>
    insertOrMergeStatus w tableName id owner_ Status.checkout) ;;

  await w AtCheckout (GitCheckout dir branchName) ;;
  log ("checkout branch " +:+ branchName) ;;
  ifTruthy id_ (fun id =>
    insertOrMergeStatus w tableName id owner_ Status.upgrade) ;;

  await w AtUpgrade (UpgradeFromProject tempPath version_) ;;
  log "upgrade succeed" ;;
  ifTruthy id_ (fun id =>
    insertOrMergeStatus w tableName id owner_ Status.add) ;;

  await w AtAdd (GitAdd dir ".") ;;
  log "add changes succeed" ;;
  ifTruthy id_ (fun id =>
    insertOrMergeStatus w tableName id owner_ Status.commit) ;;

  await w AtCommit
    (GitCommit dir "ts-upgrade-bot" "tsupgradebot@gmail.com"
       "Upgrade TypeScript syntax") ;;
  log "commit succeed" ;;
  ifTruthy id_ (fun id =>
    insertOrMergeStatus w tableName id owner_ Status.push) ;;

  await w AtPush (GitPush dir "origin" branchName true authToken_) ;;
  log "push succeed" ;;
  ifTruthy id_ (fun id =>
    insertOrMergeStatus w tableName id owner_ Status.star) ;;

  await w AtStar (ActivityStarRepo owner_ repo_) ;;
  log "star succeed" ;;
  ifTruthy id_ (fun id =>
    insertOrMergeStatus w tableName id owner_ Status.pr) ;;

  await w AtPullRequest
    (PullsCreate owner_ repo_ "Upgrade TypeScript syntax" branch_
       ("ts-upgrade-bot:" +:+ branchName)) ;;
  log "pull request created" ;;
  ifTruthy id_ (fun id =>
    insertOrMergeStatus w tableName id owner_ Status.done) ;;

  ret (pullUrl w).

(** The [catch (e)] block. *)
Definition main_catch (e : Exn) : M string :=
  ifTruthy id_ (fun id =>
    insertOrMergeStatusWithoutLast w tableName id owner_ Status.error) ;;
  throw e.

Definition main : M string :=
  main_init ;;
  tryCatch main_try main_catch.

End Main.

(** A run starts with nothing called and nothing logged yet, on a
    storage account that holds the tables [s]. *)
Definition start (s : TableStore) : State :=
  {| tables := s; trace := []; console := [] |}.

End Orchestrator.

(** ** The orchestrator without a ledger ([doUpgrade/index.ts]) *)

Module DoUpgrade.

Record Options : Type := {
  authToken : string;
  owner : string;
  repo : string;
  branch : option string
}.

Section Main.

Context (w : World) (options : Options).

Let authToken_ : string := authToken options.
Let owner_ : string := owner options.
Let repo_ : string := repo options.
Let branch_ : string := default "master" (branch options).

Definition main : M string :=
  await w AtAuth (OctokitNew authToken_) ;;
  log "Auth succeed" ;;

  await w AtFork (ReposCreateFork owner_ repo_) ;;
  let forkResult := forkData w in
  log "Fork succeed" ;;

  let id := uuid_v4 w in
  let tempPath := path_join w (tmpdir w) id in
  let dir := tempPath in
  log ("clone " +:+ html_url forkResult +:+ " into " +:+ tempPath +:+ " started") ;;

  await w AtClone (GitClone dir (clone_url forkResult) true 1) ;;
  log ("clone " +:+ html_url forkResult +:+ " into " +:+ tempPath +:+ " succeed") ;;

  ifTruthy (Some branch_) (fun _ =>
    await w AtCheckoutBase (GitCheckout dir branch_) ;;
    log ("checkout into " +:+ branch_)) ;;

  await w AtLog (GitLog dir 1 branch_) ;;
  let sha := Orchestrator.sha (commits w) in
  log ("current commit is " +:+ Orchestrator.showSha sha) ;;

  hash8 <- Orchestrator.slice_0_8 sha ;;
  let branchName := "ts-upgrade-at-" +:+ hash8 in

  await w AtBranch (GitBranch dir branchName) ;;
  log ("create branch " +:+ branchName) ;;

  await w AtCheckout (GitCheckout dir branchName) ;;
  log ("checkout branch " +:+ branchName) ;;

  await w AtUpgrade (UpgradeFromProject tempPath (v3_8 w)) ;;
  log "upgrade succeed" ;;

  await w AtAdd (GitAdd dir ".") ;;
  log "add changes succeed" ;;

  await w AtCommit
    (GitCommit dir "ts-upgrade-bot" "tsupgradebot@gmail.com"
       "Upgrade TypeScript syntax") ;;
  log "commit succeed" ;;

  await w AtPush (GitPush dir "origin" branchName true authToken_) ;;
  log "push succeed" ;;

  await w AtPullRequest
    (PullsCreate owner_ repo_ "Upgrade TypeScript syntax" branch_
       ("ts-upgrade-bot:" +:+ branchName)) ;;
  log "pull request created" ;;

  ret (pullUrl w).

End Main.

End DoUpgrade.

(** ** The status query *)

Module StatusQuery.

Section Query.

Context (w : World).

(** [queryEntities] with the query [where RowKey eq id] on the table
    [tableName]; the service fails when there is no such table. *)
Definition queryEntities (tableName : string) (rowKey : string)
  : M (list Entity) :=
  fun st =>
    let st' := emit AtQuery (TableQueryEntities tableName rowKey) st in
    match rejects w AtQuery with
    | Some e => (Throw e, st')
    | None =>
        match tables st !! tableName with
        | Some t => (Return (storeQueryRowKey t rowKey), st')
        | None => (Throw tableNotFound, st')
        end
    end.

(** [result.entries && result.entries.length && result.entries[0] || undefined]:
    an array is truthy, the length 0 is falsy, an entity is truthy. *)
Definition data (entries : list Entity) : option Entity :=
  if (length entries =? 0)%nat then None else entries !! 0%nat.

(** The value of [context.res.body.data]; [taskTableName] is
    [process.env.TASK_TABLE_NAME]. *)
Definition httpTrigger (taskTableName : string) (id : string)
  : M (option Entity) :=
  result <- queryEntities taskTableName id ;;
  ret (data result).

End Query.

End StatusQuery.

(** ** Observations on a run *)

(** The ledger: the rows of the table the orchestrator writes to. *)
Definition ledger (st : State) : Table :=
  rowsOf (tables st) Orchestrator.tableName.

(** The [lastStatus] and [status] values a ledger write carries. *)
Definition int32Property (e : Entity) (name : string) : option Z :=
  match e !! name with
  | Some (EdmInt32 n) => Some n
  | _ => None
  end.

Definition writtenEntity (ev : Event) : option Entity :=
  match ev_call ev with
  | TableInsertOrReplace _ e | TableInsertOrMerge _ e => Some e
  | _ => None
  end.

Definition lastStatusWritten (ev : Event) : option Z :=
  match writtenEntity ev with
  | Some e => int32Property e "lastStatus"
  | None => None
  end.

Definition statusWritten (ev : Event) : option Z :=
  match writtenEntity ev with
  | Some e => int32Property e "status"
  | None => None
  end.

(** A call to the table service. *)
Definition isLedgerCall (c : Call) : bool :=
  match c with
  | TableCreateIfNotExists _ | TableInsertOrReplace _ _
  | TableInsertOrMerge _ _ | TableQueryEntities _ _ => true
  | _ => false
  end.

(** The status value that names the step a collaborator action belongs to:
    [Status.fork] for [createFork], [Status.upgrade] for
    [upgradeFromProject], and so on.  Checking out the base branch and
    reading the log prepare the creation of the working branch.  The
    calls to the table service belong to no step. *)
Definition stage (s : Site) : option Status.t :=
  match s with
  | AtAuth => Some Status.auth
  | AtFork => Some Status.fork
  | AtClone => Some Status.clone
  | AtCheckoutBase | AtLog | AtBranch => Some Status.branch
  | AtCheckout => Some Status.checkout
  | AtUpgrade => Some Status.upgrade
  | AtAdd => Some Status.add
  | AtCommit => Some Status.commit
  | AtPush => Some Status.push
  | AtStar => Some Status.star
  | AtPullRequest => Some Status.pr
  | AtCreateTable | AtInitRecord | AtStatus _ | AtErrorStatus | AtQuery => None
  end.

Definition sites (tr : list Event) : list Site := ev_site <$> tr.

(** The last collaborator action (not a table call) of a trace. *)
Definition lastAction (tr : list Event) : option Site :=
  last (filter (λ s, is_Some (stage s)) (sites tr)).

(** The names given to [git.branch] in a trace. *)
Definition branchRef (ev : Event) : option string :=
  match ev_call ev with
  | GitBranch _ ref => Some ref
  | _ => None
  end.

Definition branchRefs (tr : list Event) : list string := omap branchRef tr.

(** Does every action of a step other than [auth] come after a merge
    write that carries the status value of the step.  [seen] are the
    values written so far. *)
Fixpoint writesPrecede (seen : list Z) (tr : list Event) : bool :=
  match tr with
  | [] => true
  | ev :: tr' =>
      match stage (ev_site ev) with
      | Some X =>
          bool_decide (Status.toZ X ∈ seen) && writesPrecede seen tr'
      | None =>
          match lastStatusWritten ev, statusWritten ev with
          | Some n, Some m =>
              if decide (n = m) then writesPrecede (n :: seen) tr'
              else writesPrecede seen tr'
          | _, _ => writesPrecede seen tr'
          end
      end
  end.

(** ** Scenarios *)

Module Scenario.

Definition bot : ForkData :=
  {| clone_url := "https://github.com/ts-upgrade-bot/widgets.git";
     html_url := "https://github.com/ts-upgrade-bot/widgets" |}.

Definition head : ReadCommitResult :=
  {| oid := "9fceb02d0ae598e95dc970b74767f19372d61af8";
     commit := {| tree := "4b825dc642cb6eb9a060e54bf8d69288fbee4904" |} |}.

(** Every collaborator call succeeds, except the ones [failing] names. *)
Definition world (failing : Site -> option Exn) (log : list ReadCommitResult)
  : World :=
  {| rejects := failing;
     forkData := bot;
     commits := log;
     pullUrl := "https://api.github.com/repos/acme/widgets/pulls/7";
     uuid_v4 := "1b9d6bcd-bbfd-4b2d-9b5d-ab8dfbbd4bed";
     tmpdir := "/tmp";
     path_join := fun dir name => dir +:+ "/" +:+ name;
     Latest := 99;
     v3_8 := 38 |}.

Definition allGood : World := world (fun _ => None) [head].

Definition failingAt (s : Site) (e : Exn) : World :=
  world (fun s' => if decide (s' = s) then Some e else None) [head].

Definition emptyLog : World := world (fun _ => None) [].

(** owner="acme", repo="widgets", branch="main", runId="r1". *)
Definition acme (runId : option string) : Orchestrator.Options :=
  {| Orchestrator.authToken := "token";
     Orchestrator.connectionString := "UseDevelopmentStorage=true";
     Orchestrator.owner := "acme";
     Orchestrator.repo := "widgets";
     Orchestrator.id := runId;
     Orchestrator.branch := Some "main";
     Orchestrator.version := None |}.

(** The same run-id submitted for a repository of another owner. *)
Definition globex (runId : option string) : Orchestrator.Options :=
  {| Orchestrator.authToken := "token";
     Orchestrator.connectionString := "UseDevelopmentStorage=true";
     Orchestrator.owner := "globex";
     Orchestrator.repo := "gadgets";
     Orchestrator.id := runId;
     Orchestrator.branch := None;
     Orchestrator.version := Some 38 |}.

Definition acmeOld : DoUpgrade.Options :=
  {| DoUpgrade.authToken := "token";
     DoUpgrade.owner := "acme";
     DoUpgrade.repo := "widgets";
     DoUpgrade.branch := Some "main" |}.

Definition transformationThrows : World :=
  failingAt AtUpgrade (Failed "upgradeFromProject failed").

End Scenario.

(** ** Further observations on a run *)

(** An integer property of the row of a run. *)
Definition rowInt32 (t : Table) (owner id name : string) : option Z :=
  match rowProperty t owner id name with
  | Some (EdmInt32 n) => Some n
  | _ => None
  end.

(** The call sites of a run in which nothing fails, in the order of the
    source: [withId] when the tests [if (id)] hold, [baseCheckout] when
    [if (branch)] holds. *)
Definition fullRun (withId baseCheckout : bool) : list Site :=
  let st (s : Status.t) : list Site := if withId then [AtStatus s] else [] in
  ((if withId then [AtCreateTable; AtInitRecord] else [])
   ++ [AtAuth] ++ st Status.fork
   ++ [AtFork] ++ st Status.clone
   ++ [AtClone] ++ st Status.branch
   ++ (if baseCheckout then [AtCheckoutBase] else [])
   ++ [AtLog; AtBranch] ++ st Status.checkout
   ++ [AtCheckout] ++ st Status.upgrade
   ++ [AtUpgrade] ++ st Status.add
   ++ [AtAdd] ++ st Status.commit
   ++ [AtCommit] ++ st Status.push
   ++ [AtPush] ++ st Status.star
   ++ [AtStar] ++ st Status.pr
   ++ [AtPullRequest] ++ st Status.done)%list.

(** Is the string non-empty, as [if (s)] tests it. *)
Definition nonEmpty (s : string) : bool :=
  match s with
  | EmptyString => false
  | _ => true
  end.

(** The sites of a trace without the write of the [catch] block. *)
Definition withoutHandler (ss : list Site) : list Site :=
  match last ss with
  | Some AtErrorStatus => removelast ss
  | _ => ss
  end.

(** The working directory a git call is given. *)
Definition gitDir (c : Call) : option string :=
  match c with
  | GitClone dir _ _ _ | GitCheckout dir _ | GitLog dir _ _ | GitBranch dir _
  | GitAdd dir _ | GitCommit dir _ _ _ | GitPush dir _ _ _ _ => Some dir
  | UpgradeFromProject dir _ => Some dir
  | _ => None
  end.


(** The branch names given to the calls that follow [git.branch]: the
    checkout of the working branch and the push. *)
Definition workingRef (ev : Event) : option string :=
  match ev with
  | Ev AtCheckout (GitCheckout _ ref) => Some ref
  | Ev _ (GitPush _ _ ref _ _) => Some ref
  | _ => None
  end.

(** The [head] of the pull request. *)
Definition pullHead (ev : Event) : option string :=
  match ev_call ev with
  | PullsCreate _ _ _ _ head => Some head
  | _ => None
  end.

(** The base branch as the calls name it: the first checkout, the log and
    the [base] of the pull request. *)
Definition baseRef (ev : Event) : option string :=
  match ev with
  | Ev AtCheckoutBase (GitCheckout _ ref) => Some ref
  | Ev _ (GitLog _ _ ref) => Some ref
  | Ev _ (PullsCreate _ _ _ base _) => Some base
  | _ => None
  end.

(** The URL a clone is made from. *)
Definition cloneUrl (ev : Event) : option string :=
  match ev_call ev with
  | GitClone _ url _ _ => Some url
  | _ => None
  end.

(** ** Further scenarios *)

(** The push is refused and the table service is down when the handler
    writes. *)
Definition pushRefusedStoreDown : World :=
  Scenario.world
    (fun s => if decide (s = AtPush) then Some (Failed "push refused")
              else if decide (s = AtErrorStatus) then Some (Failed "503")
              else None)
    [Scenario.head].

(** ** The table service: what a row holds after a write *)

Lemma entityKey_statusEntry id owner s :
  entityKey (statusEntry id owner s) = Some (owner, id).
Proof. reflexivity. Qed.

Lemma entityKey_statusEntryWithoutLast id owner s :
  entityKey (statusEntryWithoutLast id owner s) = Some (owner, id).
Proof. reflexivity. Qed.

Lemma entityKey_entry w options i :
  entityKey (Orchestrator.entry w options i) = Some (Orchestrator.owner options, i).
Proof. reflexivity. Qed.

Lemma rowProperty_mergeRow t o i e name :
  rowProperty (mergeRow t (o, i) e) o i name =
    match e !! name with
    | Some v => Some v
    | None => rowProperty t o i name
    end.
Proof.
  unfold rowProperty, mergeRow. rewrite lookup_insert_eq, lookup_union.
  destruct (e !! name) as [v|]; [ by destruct (default ∅ (t !! (o, i)) !! name) | ].
  rewrite (left_id_L None _). by destruct (t !! (o, i)).
Qed.

Lemma rowProperty_insert t o i e name :
  rowProperty (<[(o, i) := e]> t) o i name = e !! name.
Proof. unfold rowProperty. by rewrite lookup_insert_eq. Qed.

Lemma lookup_mergeRow_ne t k k' e :
  k ≠ k' → mergeRow t k e !! k' = t !! k'.
Proof. intros. unfold mergeRow. by rewrite lookup_insert_ne. Qed.

(** The tables of the account after a table is created or written. *)
Lemma lookup_storeCreate_eq (s : TableStore) tableName :
  storeCreateTableIfNotExists s tableName !! tableName = Some (rowsOf s tableName).
Proof.
  unfold storeCreateTableIfNotExists, rowsOf.
  destruct (s !! tableName) as [t|] eqn:Ht; [ by rewrite Ht | ].
  by rewrite lookup_insert_eq.
Qed.

Lemma lookup_storeCreate_ne (s : TableStore) tableName other :
  other ≠ tableName →
  storeCreateTableIfNotExists s tableName !! other = s !! other.
Proof.
  intros Hne. unfold storeCreateTableIfNotExists.
  destruct (s !! tableName); [ done | ]. by rewrite lookup_insert_ne.
Qed.

Lemma rowsOf_insert (s : TableStore) tableName t :
  rowsOf (<[tableName := t]> s) tableName = t.
Proof. unfold rowsOf. by rewrite lookup_insert_eq. Qed.

Lemma rowsOf_storeCreate (s : TableStore) tableName :
  rowsOf (storeCreateTableIfNotExists s tableName) tableName = rowsOf s tableName.
Proof. unfold rowsOf at 1. by rewrite lookup_storeCreate_eq. Qed.

(** A merge of [status] alone leaves every other property of the row. *)
Lemma statusEntryWithoutLast_lookup id owner s name :
  name ∉ ["status"; "PartitionKey"; "RowKey"] →
  statusEntryWithoutLast id owner s !! name = None.
Proof.
  intros Hn. unfold statusEntryWithoutLast.
  do 2 (rewrite lookup_insert_ne; [ | intros <-; apply Hn; set_solver ]).
  apply lookup_singleton_ne. intros <-; apply Hn; set_solver.
Qed.

Lemma rowProperty_mergeWithoutLast t o i s name :
  name ∉ ["status"; "PartitionKey"; "RowKey"] →
  rowProperty (mergeRow t (o, i) (statusEntryWithoutLast i o s)) o i name
  = rowProperty t o i name.
Proof.
  intros Hn. rewrite rowProperty_mergeRow.
  by rewrite statusEntryWithoutLast_lookup.
Qed.

(** ** Running the code symbolically *)

Arguments statusEntry : simpl never.
Arguments statusEntryWithoutLast : simpl never.
Arguments Orchestrator.entry : simpl never.
Arguments Orchestrator.sha : simpl never.
Arguments mergeRow : simpl never.
Arguments storeCreateTableIfNotExists : simpl never.
Arguments rowsOf : simpl never.
Arguments String.append : simpl never.
Arguments String.substring : simpl never.
Arguments Status.toZ : simpl never.

(** The scrutinee the evaluation of a term is stuck on. *)
Ltac head_scrutinee t :=
  lazymatch t with
  | match ?x with _ => _ end => head_scrutinee x
  | (match ?x with _ => _ end) _ => head_scrutinee x
  | _ => t
  end.

Ltac unfold_run H :=
  unfold Orchestrator.main, Orchestrator.main_init, Orchestrator.main_try,
    Orchestrator.main_catch, DoUpgrade.main, ifTruthy,
    createTableIfNotExists, insertOrReplaceEntity, insertOrMergeStatus,
    insertOrMergeStatusWithoutLast, insertOrMergeEntity, awaitWrite,
    storeMerge, storeReplace, Orchestrator.slice_0_8,
    bind, tryCatch, await, log, ret, throw in H.

(** The run-id is present: the entities the code builds carry their key. *)
Ltac with_id H Hid :=
  rewrite Hid in H; cbn in H;
  rewrite ?entityKey_statusEntry, ?entityKey_statusEntryWithoutLast,
    ?entityKey_entry in H;
  cbn in H.

(** One case split on what the environment answers next. *)
Ltac oracle H :=
  match type of H with
  | ?l = _ =>
      let r := head_scrutinee l in
      lazymatch r with
      | (_, _) => fail
      | (<[_ := _]> _) !! _ => rewrite lookup_insert_eq, ?insert_insert_eq in H
      | storeCreateTableIfNotExists _ _ !! _ => rewrite lookup_storeCreate_eq in H
      | _ => destruct r eqn:?
      end
  end.

(** All the paths of a run [H : code state = result]. *)
Ltac explore H := repeat (first [ discriminate H | oracle H; cbn in H ]).


(** The rows of the ledger in a state that is known. *)
Ltac read_ledger :=
  try unfold ledger; cbn [fst snd tables trace console setTables emit];
  rewrite ?rowsOf_insert, ?rowsOf_storeCreate.
(** ** The ledger of a run that succeeds *)

(** C3: in a run with a run-id that returns the pull request, the
    [lastStatus] values of the ledger writes are, in order, exactly the
    members of the enumeration from [auth] to [done]; the row ends with
    [status = lastStatus = done]. *)
Theorem C3_success_progression w options s i url st' :
  truthy (Orchestrator.id options) = Some i →
  Orchestrator.main w options (Orchestrator.start s) = (Return url, st') →
  omap lastStatusWritten (trace st') = Status.toZ <$> Status.progression
  ∧ rowProperty (ledger st') (Orchestrator.owner options) i "lastStatus"
    = Some (EdmInt32 (Status.toZ Status.done))
  ∧ rowProperty (ledger st') (Orchestrator.owner options) i "status"
    = Some (EdmInt32 (Status.toZ Status.done)).
Proof.
  intros Hid H. unfold_run H. with_id H Hid. explore H.
  all: injection H as _ <-; read_ledger.
  all: rewrite !rowProperty_mergeRow; split; [ | split ]; vm_compute; reflexivity.
Qed.

Lemma C3_success_progression_witness :
  let r := Orchestrator.main Scenario.allGood (Scenario.acme (Some "r1"))
             (Orchestrator.start ∅) in
  omap lastStatusWritten (trace r.2) = [0; 1; 2; 3; 4; 5; 6; 7; 8; 9; 10; 11]
  ∧ rowProperty (ledger r.2) "acme" "r1" "lastStatus" = Some (EdmInt32 11)
  ∧ rowProperty (ledger r.2) "acme" "r1" "status" = Some (EdmInt32 11).
Proof.
  apply (C3_success_progression Scenario.allGood (Scenario.acme (Some "r1")) ∅ "r1"
           "https://api.github.com/repos/acme/widgets/pulls/7").
  - reflexivity.
  - vm_compute. reflexivity.
Defined.

(** ** A run without a run-id leaves no trace in the ledger *)

(** C6: when the run-id is absent (or the empty string, which the tests
    [if (id)] treat alike) no call to the table service is issued, and
    the tables of the account are left as they were (none is created, no
    row is written), whether the run returns or throws; so a query finds
    what it found before. *)
Theorem C6_no_id_no_ledger w options s :
  truthy (Orchestrator.id options) = None →
  let r := Orchestrator.main w options (Orchestrator.start s) in
  tables r.2 = s
  ∧ ledger r.2 = rowsOf s Orchestrator.tableName
  ∧ Forall (λ ev, isLedgerCall (ev_call ev) = false) (trace r.2)
  ∧ ∀ runId, storeQueryRowKey (ledger r.2) runId
             = storeQueryRowKey (rowsOf s Orchestrator.tableName) runId.
Proof.
  intros Hid r.
  assert (tables r.2 = s
          ∧ Forall (λ ev, isLedgerCall (ev_call ev) = false) (trace r.2)) as [Hl Ht].
  { remember r as r' eqn:H. subst r. symmetry in H.
    unfold_run H. rewrite Hid in H. cbn in H. explore H.
    all: subst r'; split; [ reflexivity | cbn; repeat constructor ]. }
  assert (ledger r.2 = rowsOf s Orchestrator.tableName) as Hrows
    by (unfold ledger; by rewrite Hl).
  split; [ exact Hl | split; [ exact Hrows | split; [ exact Ht | ] ] ].
  intros runId. by rewrite Hrows.
Qed.

Lemma C6_no_id_no_ledger_witness :
  let r := Orchestrator.main Scenario.transformationThrows (Scenario.acme None)
             (Orchestrator.start ∅) in
  tables r.2 = ∅
  ∧ ledger r.2 = rowsOf ∅ Orchestrator.tableName
  ∧ Forall (λ ev, isLedgerCall (ev_call ev) = false) (trace r.2)
  ∧ ∀ runId, storeQueryRowKey (ledger r.2) runId
             = storeQueryRowKey (rowsOf ∅ Orchestrator.tableName) runId.
Proof.
  apply (C6_no_id_no_ledger Scenario.transformationThrows (Scenario.acme None) ∅).
  reflexivity.
Defined.

(** ** The ledger of a run that fails *)

(** C1, as the specification states it, fails in its own scenario: when
    the transformation throws for owner="acme", repo="widgets",
    branch="main", runId="r1", the row (acme, r1) has [status = error]
    but [lastStatus = upgrade], not [checkout]. *)
Lemma C1_scenario_lastStatus_is_upgrade :
  let r := Orchestrator.main Scenario.transformationThrows
             (Scenario.acme (Some "r1")) (Orchestrator.start ∅) in
  r.1 = Throw (Failed "upgradeFromProject failed")
  ∧ rowProperty (ledger r.2) "acme" "r1" "status"
    = Some (EdmInt32 (Status.toZ Status.error))
  ∧ rowProperty (ledger r.2) "acme" "r1" "lastStatus"
    = Some (EdmInt32 (Status.toZ Status.upgrade))
  ∧ rowProperty (ledger r.2) "acme" "r1" "lastStatus"
    ≠ Some (EdmInt32 (Status.toZ Status.checkout)).
Proof. vm_compute. repeat split; discriminate. Qed.

(** C1, amended: in a run with a run-id whose ledger writes are accepted
    and that throws, let [a] be the last collaborator action issued and
    [X] the status value naming its step.  Then [a] is the action that
    failed (or the log, when the failure is the [slice] of an undefined
    tree identifier), the row has [status = error], and [lastStatus] is
    [X] itself, the value written before the action started. *)
Theorem C1_failure_keeps_failing_step w options s i e st' a X :
  truthy (Orchestrator.id options) = Some i →
  rejects w AtCreateTable = None →
  rejects w AtInitRecord = None →
  (∀ x, rejects w (AtStatus x) = None) →
  rejects w AtErrorStatus = None →
  Orchestrator.main w options (Orchestrator.start s) = (Throw e, st') →
  lastAction (trace st') = Some a →
  stage a = Some X →
  (rejects w a = Some e ∨ (a = AtLog ∧ Orchestrator.sha (commits w) = None))
  ∧ rowProperty (ledger st') (Orchestrator.owner options) i "status"
    = Some (EdmInt32 (Status.toZ Status.error))
  ∧ rowProperty (ledger st') (Orchestrator.owner options) i "lastStatus"
    = Some (EdmInt32 (Status.toZ X)).
Proof.
  intros Hid Hc Hi Hs He H Ha HX. unfold_run H. with_id H Hid.
  rewrite ?Hc, ?Hi, ?He in H. rewrite !Hs in H. cbn in H. explore H.
  all: injection H as <- <-; cbn [trace setTables emit] in Ha; read_ledger.
  all: vm_compute in Ha; injection Ha as <-.
  all: cbn in HX; injection HX as <-.
  all: rewrite !rowProperty_mergeRow, ?rowProperty_insert.
  all: split; [ auto | split; vm_compute; reflexivity ].
Qed.

Lemma C1_failure_keeps_failing_step_witness :
  let r := Orchestrator.main Scenario.transformationThrows
             (Scenario.acme (Some "r1")) (Orchestrator.start ∅) in
  (rejects Scenario.transformationThrows AtUpgrade
   = Some (Failed "upgradeFromProject failed")
   ∨ (AtUpgrade = AtLog
      ∧ Orchestrator.sha (commits Scenario.transformationThrows) = None))
  ∧ rowProperty (ledger r.2) "acme" "r1" "status" = Some (EdmInt32 (-1))
  ∧ rowProperty (ledger r.2) "acme" "r1" "lastStatus" = Some (EdmInt32 5).
Proof.
  intros r.
  apply (C1_failure_keeps_failing_step Scenario.transformationThrows
           (Scenario.acme (Some "r1")) ∅ "r1"
           (Failed "upgradeFromProject failed") r.2 AtUpgrade Status.upgrade).
  - reflexivity.
  - reflexivity.
  - reflexivity.
  - intros x. vm_compute. reflexivity.
  - reflexivity.
  - vm_compute. reflexivity.
  - vm_compute. reflexivity.
  - reflexivity.
Defined.

(** What the [catch] block does once the body of the [try] has thrown. *)
Lemma main_after_throw w options s st0 e st1 :
  Orchestrator.main_init w options (Orchestrator.start s) = (Return tt, st0) →
  Orchestrator.main_try w options st0 = (Throw e, st1) →
  Orchestrator.main w options (Orchestrator.start s)
  = Orchestrator.main_catch w options e st1.
Proof.
  intros Hinit Htry. unfold Orchestrator.main, bind, tryCatch.
  by rewrite Hinit, Htry.
Qed.

Lemma ledger_written (s : TableStore) t st :
  ledger (setTables (<[Orchestrator.tableName := t]> s) st) = t.
Proof. unfold ledger. cbn [tables setTables]. apply rowsOf_insert. Qed.

(** Once the record of a run is written the table exists, and the body of
    the [try] does not remove it. *)
Lemma table_exists_in_try w options s i st0 out st1 :
  truthy (Orchestrator.id options) = Some i →
  Orchestrator.main_init w options (Orchestrator.start s) = (Return tt, st0) →
  Orchestrator.main_try w options st0 = (out, st1) →
  tables st1 !! Orchestrator.tableName = Some (ledger st1).
Proof.
  intros Hid Hinit H.
  unfold_run Hinit. with_id Hinit Hid. explore Hinit.
  injection Hinit as <-.
  unfold_run H. with_id H Hid. explore H.
  all: injection H as _ <-; read_ledger; apply lookup_insert_eq.
Qed.

Lemma main_catch_with_id w options i e st t :
  truthy (Orchestrator.id options) = Some i →
  tables st !! Orchestrator.tableName = Some t →
  Orchestrator.main_catch w options e st =
    let write :=
      TableInsertOrMerge Orchestrator.tableName
        (statusEntryWithoutLast i (Orchestrator.owner options) Status.error) in
    match rejects w AtErrorStatus with
    | Some e' => (Throw e', emit AtErrorStatus write st)
    | None =>
        (Throw e,
         setTables
           (<[Orchestrator.tableName :=
                mergeRow t (Orchestrator.owner options, i)
                  (statusEntryWithoutLast i (Orchestrator.owner options)
                     Status.error)]> (tables st))
           (emit AtErrorStatus write st))
    end.
Proof.
  intros Hid Ht. unfold Orchestrator.main_catch, ifTruthy. rewrite Hid.
  unfold insertOrMergeStatusWithoutLast, insertOrMergeEntity, awaitWrite,
    storeMerge, bind, throw.
  rewrite entityKey_statusEntryWithoutLast, Ht.
  by destruct (rejects w AtErrorStatus).
Qed.

(** C2: when the body of the [try] throws [e] in a run with a run-id, the
    handler issues exactly one more call, a merge of an entity that holds
    the key and [status = error] and nothing else.  Once the table service
    has accepted it, the row has [status = error], every other property
    of the row (so [lastStatus], [owner], [repo], [branch], [version]) and
    every other row are as they were when the error was thrown, and [main]
    throws the same [e]. *)
Theorem C2_error_write_then_rethrow w options s i st0 e st1 :
  truthy (Orchestrator.id options) = Some i →
  Orchestrator.main_init w options (Orchestrator.start s) = (Return tt, st0) →
  Orchestrator.main_try w options st0 = (Throw e, st1) →
  let r := Orchestrator.main w options (Orchestrator.start s) in
  let o := Orchestrator.owner options in
  let written := statusEntryWithoutLast i o Status.error in
  trace r.2
  = (trace st1 ++ [Ev AtErrorStatus (TableInsertOrMerge Orchestrator.tableName written)])%list
  ∧ written !! "status" = Some (EdmInt32 (Status.toZ Status.error))
  ∧ (∀ name, name ∉ ["status"; "PartitionKey"; "RowKey"] → written !! name = None)
  ∧ (rejects w AtErrorStatus = None →
     r.1 = Throw e
     ∧ rowProperty (ledger r.2) o i "status"
       = Some (EdmInt32 (Status.toZ Status.error))
     ∧ (∀ name, name ∉ ["status"; "PartitionKey"; "RowKey"] →
        rowProperty (ledger r.2) o i name = rowProperty (ledger st1) o i name)
     ∧ (∀ k, k ≠ (o, i) → ledger r.2 !! k = ledger st1 !! k)).
Proof.
  intros Hid Hinit Htry r o written. subst r.
  rewrite (main_after_throw _ _ _ _ _ _ Hinit Htry).
  rewrite (main_catch_with_id _ _ _ _ _ _ Hid
             (table_exists_in_try _ _ _ _ _ _ _ Hid Hinit Htry)).
  cbn zeta. fold o. fold written.
  split; [ by destruct (rejects w AtErrorStatus) | ].
  split; [ reflexivity | ].
  split; [ intros name Hn; by apply statusEntryWithoutLast_lookup | ].
  intros ->. cbn [fst snd]. rewrite !ledger_written.
  split; [ reflexivity | ].
  split; [ by rewrite rowProperty_mergeRow | ].
  split.
  - intros name Hn. by apply rowProperty_mergeWithoutLast.
  - intros k Hk. by apply lookup_mergeRow_ne.
Qed.

(** When the table service rejects the write of the handler, it is the
    error of that write that [main] throws. *)
Lemma main_catch_rejected_write w options i e e' st :
  truthy (Orchestrator.id options) = Some i →
  rejects w AtErrorStatus = Some e' →
  (Orchestrator.main_catch w options e st).1 = Throw e'
  ∧ tables (Orchestrator.main_catch w options e st).2 = tables st.
Proof.
  intros Hid Hr. unfold Orchestrator.main_catch, ifTruthy. rewrite Hid.
  unfold insertOrMergeStatusWithoutLast, insertOrMergeEntity, awaitWrite,
    bind, throw.
  by rewrite Hr.
Qed.

(** The properties of a run record that the handler does not write. *)
Lemma runFields_kept name :
  name ∈ ["lastStatus"; "owner"; "repo"; "branch"; "version"] →
  name ∉ ["status"; "PartitionKey"; "RowKey"].
Proof. set_unfold. intros [->|[->|[->|[->|[->|[]]]]]]; intros [?|[?|[?|[]]]]; discriminate. Qed.

Lemma C2_error_write_then_rethrow_witness :
  let r := Orchestrator.main Scenario.transformationThrows
             (Scenario.acme (Some "r1")) (Orchestrator.start ∅) in
  r.1 = Throw (Failed "upgradeFromProject failed")
  ∧ rowProperty (ledger r.2) "acme" "r1" "status" = Some (EdmInt32 (-1))
  ∧ rowProperty (ledger r.2) "acme" "r1" "lastStatus" = Some (EdmInt32 5)
  ∧ rowProperty (ledger r.2) "acme" "r1" "repo" = Some (EdmString "widgets").
Proof.
  pose (w := Scenario.transformationThrows).
  pose (options := Scenario.acme (Some "r1")).
  pose (st0 := (Orchestrator.main_init w options (Orchestrator.start ∅)).2).
  pose (st1 := (Orchestrator.main_try w options st0).2).
  assert (Orchestrator.main_init w options (Orchestrator.start ∅) = (Return tt, st0))
    as Hinit by (vm_compute; reflexivity).
  assert (Orchestrator.main_try w options st0
          = (Throw (Failed "upgradeFromProject failed"), st1))
    as Htry by (vm_compute; reflexivity).
  pose proof (C2_error_write_then_rethrow w options ∅ "r1" st0 _ st1
                eq_refl Hinit Htry) as (_ & _ & _ & Haccepted).
  destruct (Haccepted eq_refl) as (Hthrow & Hstatus & Hkeep & _).
  intros r.
  split; [ exact Hthrow | ].
  split; [ exact Hstatus | ].
  split.
  - refine (eq_trans (Hkeep "lastStatus" _) _); [ apply runFields_kept; repeat constructor | ].
    vm_compute. reflexivity.
  - refine (eq_trans (Hkeep "repo" _) _); [ apply runFields_kept; repeat constructor | ].
    vm_compute. reflexivity.
Defined.

(** ** Each status value is written before the action of its step *)

Lemma writesPrecede_sound tr :
  ∀ seen, writesPrecede seen tr = true →
  ∀ pre ev post X,
    tr = (pre ++ ev :: post)%list →
    stage (ev_site ev) = Some X →
    Status.toZ X ∈ seen
    ∨ ∃ wr, wr ∈ pre
            ∧ lastStatusWritten wr = Some (Status.toZ X)
            ∧ statusWritten wr = Some (Status.toZ X).
Proof.
  induction tr as [|hd tr IH]; intros seen Hok pre ev post X Htr HX.
  { by destruct pre. }
  destruct pre as [|p pre]; simplify_eq/=.
  - rewrite HX in Hok. apply andb_prop in Hok as [Hin _].
    left. by apply bool_decide_eq_true in Hin.
  - assert (∀ seen', writesPrecede seen' (pre ++ ev :: post)%list = true →
            (Status.toZ X ∈ seen' → Status.toZ X ∈ seen
               ∨ lastStatusWritten p = Some (Status.toZ X)
                 ∧ statusWritten p = Some (Status.toZ X)) →
            Status.toZ X ∈ seen
            ∨ ∃ wr, wr ∈ p :: pre
                    ∧ lastStatusWritten wr = Some (Status.toZ X)
                    ∧ statusWritten wr = Some (Status.toZ X)) as Hstep.
    { intros seen' Hok' Hseen'.
      destruct (IH seen' Hok' pre ev post X eq_refl HX) as [Hin|(wr & Hwr & Hl)].
      - destruct (Hseen' Hin) as [?|?]; [ by left | right ].
        exists p. split; [ by left | done ].
      - right. exists wr. split; [ by right | done ]. }
    destruct (stage (ev_site p)).
    + apply andb_prop in Hok as [_ Hok]. eapply Hstep; eauto.
    + destruct (lastStatusWritten p) as [n|] eqn:Hn;
        [ destruct (statusWritten p) as [m|] eqn:Hm | ];
        [ destruct (decide (n = m)) as [<-|] | | ];
        (eapply Hstep; [ exact Hok | ]); auto.
      intros [->|Hin]%elem_of_cons; auto.
Qed.

Lemma writesPrecede_main w options s i :
  truthy (Orchestrator.id options) = Some i →
  writesPrecede [] (trace (Orchestrator.main w options (Orchestrator.start s)).2)
  = true.
Proof.
  intros Hid.
  remember (Orchestrator.main w options (Orchestrator.start s)) as r eqn:H.
  symmetry in H. unfold_run H. with_id H Hid. explore H.
  all: subst r; vm_compute; reflexivity.
Qed.

(** C9: in a run with a run-id, every collaborator action is issued after
    a ledger write that carries, as [status] and as [lastStatus], the
    status value naming the step of the action.  So when the body of the
    [try] throws right after issuing the action [a] of the step [X], the
    row holds [lastStatus = X] (and [status = X]) at that moment, before
    the handler runs. *)
Theorem C9_status_written_before_action w options s i :
  truthy (Orchestrator.id options) = Some i →
  (∀ pre ev post X,
     trace (Orchestrator.main w options (Orchestrator.start s)).2
     = (pre ++ ev :: post)%list →
     stage (ev_site ev) = Some X →
     ∃ wr, wr ∈ pre
           ∧ lastStatusWritten wr = Some (Status.toZ X)
           ∧ statusWritten wr = Some (Status.toZ X))
  ∧ (∀ st0 e st1 a X,
       Orchestrator.main_init w options (Orchestrator.start s) = (Return tt, st0) →
       Orchestrator.main_try w options st0 = (Throw e, st1) →
       last (sites (trace st1)) = Some a →
       stage a = Some X →
       (rejects w a = Some e ∨ (a = AtLog ∧ Orchestrator.sha (commits w) = None))
       ∧ rowProperty (ledger st1) (Orchestrator.owner options) i "lastStatus"
         = Some (EdmInt32 (Status.toZ X))
       ∧ rowProperty (ledger st1) (Orchestrator.owner options) i "status"
         = Some (EdmInt32 (Status.toZ X))).
Proof.
  intros Hid. split.
  - intros pre ev post X Htr HX.
    destruct (writesPrecede_sound _ [] (writesPrecede_main w options s i Hid)
                pre ev post X Htr HX) as [Hin|Hwr]; [ | exact Hwr ].
    by apply elem_of_nil in Hin.
  - intros st0 e st1 a X Hinit H Hlast HX.
    unfold_run Hinit. with_id Hinit Hid. explore Hinit.
    injection Hinit as <-.
    unfold_run H. with_id H Hid. explore H.
    all: injection H as <- <-; cbn [trace setTables emit] in *; read_ledger.
    all: vm_compute in Hlast; injection Hlast as <-.
    all: cbn in HX; try discriminate HX; injection HX as <-.
    all: rewrite ?rowProperty_mergeRow, ?rowProperty_insert.
    all: split; [ auto | split; vm_compute; reflexivity ].
Qed.

Lemma C9_status_written_before_action_witness :
  let w := Scenario.transformationThrows in
  let options := Scenario.acme (Some "r1") in
  let st0 := (Orchestrator.main_init w options (Orchestrator.start ∅)).2 in
  let st1 := (Orchestrator.main_try w options st0).2 in
  rowProperty (ledger st1) "acme" "r1" "lastStatus"
  = Some (EdmInt32 (Status.toZ Status.upgrade)).
Proof.
  intros w options st0 st1.
  destruct (C9_status_written_before_action w options ∅ "r1" eq_refl)
    as [_ Hthrow].
  assert (Orchestrator.main_init w options (Orchestrator.start ∅) = (Return tt, st0))
    as Hinit by (vm_compute; reflexivity).
  assert (Orchestrator.main_try w options st0
          = (Throw (Failed "upgradeFromProject failed"), st1))
    as Htry by (vm_compute; reflexivity).
  assert (last (sites (trace st1)) = Some AtUpgrade)
    as Hlast by (vm_compute; reflexivity).
  exact (proj1 (proj2 (Hthrow st0 _ st1 AtUpgrade Status.upgrade
                         Hinit Htry Hlast eq_refl))).
Defined.

(** ** The name of the working branch *)

Ltac sha_of_nil :=
  try match goal with
      | Hs : Orchestrator.sha [] = Some _ |- _ => discriminate Hs
      end.

Ltac by_compute := refine (bool_decide_unpack _ _); vm_compute; exact I.

Ltac decide_sites H :=
  apply (bool_decide_pack _) in H; vm_compute in H; try (exfalso; exact H).

(** C10: when [git.log] resolves to an empty list, [sha] is undefined
    and [sha.slice(0, 8)] throws a [TypeError]; [git.branch] is not
    called.  With a run-id the handler then writes [status = error] as
    for any other failure, the row keeps [lastStatus = branch], and the
    [TypeError] is what [main] throws.  The orchestrator without a ledger
    throws the [TypeError] as well. *)
Theorem C10_empty_log_throws_type_error w :
  commits w = [] →
  rejects w AtLog = None →
  Orchestrator.slice_0_8 (Orchestrator.sha (commits w)) = throw Orchestrator.typeErrorOfSlice
  ∧ (∀ options s,
       let r := Orchestrator.main w options (Orchestrator.start s) in
       AtLog ∈ sites (trace r.2) →
       (AtBranch ∉ sites (trace r.2))
       ∧ match truthy (Orchestrator.id options) with
         | Some i =>
             last (sites (trace r.2)) = Some AtErrorStatus
             ∧ (rejects w AtErrorStatus = None →
                r.1 = Throw Orchestrator.typeErrorOfSlice
                ∧ rowProperty (ledger r.2) (Orchestrator.owner options) i "status"
                  = Some (EdmInt32 (Status.toZ Status.error))
                ∧ rowProperty (ledger r.2) (Orchestrator.owner options) i "lastStatus"
                  = Some (EdmInt32 (Status.toZ Status.branch)))
         | None => r.1 = Throw Orchestrator.typeErrorOfSlice
         end)
  ∧ (∀ options s,
       let r := DoUpgrade.main w options (Orchestrator.start s) in
       AtLog ∈ sites (trace r.2) →
       (AtBranch ∉ sites (trace r.2)) ∧ r.1 = Throw Orchestrator.typeErrorOfSlice).
Proof.
  intros Hc Hlog. split; [ by rewrite Hc | split ].
  - intros options s r Hin.
    remember r as r' eqn:H. subst r. symmetry in H.
    destruct (truthy (Orchestrator.id options)) as [i|] eqn:Hid.
    + unfold_run H. with_id H Hid. rewrite ?Hlog, ?Hc in H. cbn in H. explore H; sha_of_nil.
      all: subst r'; cbn [fst snd trace setTables emit] in *; read_ledger.
      all: decide_sites Hin.
      all: split; [ by_compute | ].
      all: split; [ reflexivity | intros Hacc; try discriminate Hacc ].
      all: rewrite !rowProperty_mergeRow.
      all: split; [ reflexivity | split; vm_compute; reflexivity ].
    + unfold_run H. rewrite Hid in H. rewrite ?Hlog, ?Hc in H. cbn in H. explore H; sha_of_nil.
      all: subst r'; cbn [fst snd trace setTables emit] in *; read_ledger.
      all: decide_sites Hin.
      all: split; [ by_compute | reflexivity ].
  - intros options s r Hin.
    remember r as r' eqn:H. subst r. symmetry in H.
    unfold_run H. rewrite ?Hlog, ?Hc in H. cbn in H. explore H; sha_of_nil.
    all: subst r'; cbn [fst snd trace setTables emit] in *; read_ledger.
    all: decide_sites Hin.
    all: split; [ by_compute | reflexivity ].
Qed.

Lemma C10_empty_log_throws_type_error_witness :
  let r := Orchestrator.main Scenario.emptyLog (Scenario.acme (Some "r1"))
             (Orchestrator.start ∅) in
  (AtBranch ∉ sites (trace r.2))
  ∧ r.1 = Throw Orchestrator.typeErrorOfSlice
  ∧ rowProperty (ledger r.2) "acme" "r1" "status" = Some (EdmInt32 (-1))
  ∧ rowProperty (ledger r.2) "acme" "r1" "lastStatus" = Some (EdmInt32 3).
Proof.
  intros r.
  destruct (C10_empty_log_throws_type_error Scenario.emptyLog eq_refl eq_refl)
    as (_ & Hmain & _).
  destruct (Hmain (Scenario.acme (Some "r1")) ∅) as [Hbranch [_ Hrow]].
  { by_compute. }
  split; [ exact Hbranch | exact (Hrow eq_refl) ].
Defined.




(** The scenario's log gives the branch [ts-upgrade-at-4b825dc6]. *)
Example branchRefs_allGood :
  branchRefs (trace (Orchestrator.main Scenario.allGood (Scenario.acme (Some "r1"))
                       (Orchestrator.start ∅)).2)
  = ["ts-upgrade-at-4b825dc6"].
Proof. vm_compute. reflexivity. Qed.

(** ** Starting a run again with the same run-id *)

(** C5, as the specification states it, fails when the second submission
    of the run-id names another owner: the record of the first run stays
    as it was (its parameters are not overwritten and its status is not
    reset to [auth]), and the table then holds two records with that
    run-id. *)
Lemma C5_other_owner_keeps_prior_record :
  let first :=
    (Orchestrator.main Scenario.allGood (Scenario.acme (Some "r1"))
       (Orchestrator.start ∅)).2 in
  let second :=
    (Orchestrator.main_init Scenario.allGood (Scenario.globex (Some "r1"))
       (Orchestrator.start (tables first))).2 in
  rowProperty (ledger second) "acme" "r1" "owner" = Some (EdmString "acme")
  ∧ rowProperty (ledger second) "acme" "r1" "repo" = Some (EdmString "widgets")
  ∧ rowProperty (ledger second) "acme" "r1" "status"
    = Some (EdmInt32 (Status.toZ Status.done))
  ∧ rowProperty (ledger second) "acme" "r1" "status"
    ≠ Some (EdmInt32 (Status.toZ Status.auth))
  ∧ length (storeQueryRowKey (ledger second) "r1") = 2%nat.
Proof. vm_compute. repeat split; discriminate. Qed.

(** C5, amended: when a run with a run-id starts and the table service
    accepts the two calls, the row (owner, run-id) is exactly the fresh
    record, whatever the table held before: [owner], [repo], [branch] and
    [version] are those of this submission, [status] and [lastStatus] are
    [auth], and it has no other property than these and its key.  Every
    row with another key, so also a row of the same run-id under another
    owner, stays as it was. *)
Theorem C5_restart_replaces_record w options s i :
  truthy (Orchestrator.id options) = Some i →
  rejects w AtCreateTable = None →
  rejects w AtInitRecord = None →
  let st := (Orchestrator.main_init w options (Orchestrator.start s)).2 in
  let o := Orchestrator.owner options in
  ledger st !! (o, i) = Some (Orchestrator.entry w options i)
  ∧ rowProperty (ledger st) o i "owner" = Some (EdmString o)
  ∧ rowProperty (ledger st) o i "repo" = Some (EdmString (Orchestrator.repo options))
  ∧ rowProperty (ledger st) o i "branch"
    = Some (EdmString (default "master" (Orchestrator.branch options)))
  ∧ rowProperty (ledger st) o i "version"
    = Some (EdmInt32 (default (Latest w) (Orchestrator.version options)))
  ∧ rowProperty (ledger st) o i "status" = Some (EdmInt32 (Status.toZ Status.auth))
  ∧ rowProperty (ledger st) o i "lastStatus"
    = Some (EdmInt32 (Status.toZ Status.auth))
  ∧ (∀ name,
       name ∉ ["PartitionKey"; "RowKey"; "owner"; "repo"; "branch"; "version";
               "status"; "lastStatus"] →
       rowProperty (ledger st) o i name = None)
  ∧ (∀ k, k ≠ (o, i) → ledger st !! k = rowsOf s Orchestrator.tableName !! k).
Proof.
  intros Hid Hc Hi st o.
  remember (Orchestrator.main_init w options (Orchestrator.start s)) as r eqn:H.
  symmetry in H. unfold_run H. with_id H Hid. rewrite Hc, Hi in H. cbn in H.
  explore H.
  subst r st. read_ledger. fold o.
  split; [ apply lookup_insert_eq | ].
  rewrite !rowProperty_insert.
  do 6 (split; [ reflexivity | ]).
  split.
  - intros name Hn. rewrite rowProperty_insert. unfold Orchestrator.entry.
    do 7 (rewrite lookup_insert_ne;
          [ | intros <-; apply Hn; repeat constructor ]).
    apply lookup_singleton_ne. intros <-; apply Hn; repeat constructor.
  - intros k Hk. by apply lookup_insert_ne.
Qed.

Lemma C5_restart_replaces_record_witness :
  let first :=
    (Orchestrator.main Scenario.transformationThrows (Scenario.acme (Some "r1"))
       (Orchestrator.start ∅)).2 in
  let st :=
    (Orchestrator.main_init Scenario.allGood (Scenario.acme (Some "r1"))
       (Orchestrator.start (tables first))).2 in
  rowProperty (ledger first) "acme" "r1" "status" = Some (EdmInt32 (-1))
  ∧ rowProperty (ledger st) "acme" "r1" "status" = Some (EdmInt32 0)
  ∧ rowProperty (ledger st) "acme" "r1" "lastStatus" = Some (EdmInt32 0).
Proof.
  intros first st.
  split; [ vm_compute; reflexivity | ].
  destruct (C5_restart_replaces_record Scenario.allGood (Scenario.acme (Some "r1"))
              (tables first) "r1" eq_refl eq_refl eq_refl)
    as (_ & _ & _ & _ & _ & Hs & Hl & _).
  split; [ exact Hs | exact Hl ].
Defined.

(** ** The status query *)

Lemma data_head entries : StatusQuery.data entries = head entries.
Proof. by destruct entries. Qed.

Lemma partitionKeyLe_total : Total partitionKeyLe.
Proof. intros a b. unfold partitionKeyLe. apply String.leb_total. Qed.

(** The entities of an answer come in the order of the service. *)
Lemma storeQueryRowKey_sorted t rowKey :
  ∃ rows, storeQueryRowKey t rowKey = rows.*2 ∧ Sorted partitionKeyLe rows.
Proof.
  pose proof partitionKeyLe_total as Htotal.
  eexists. split; [ reflexivity | ]. apply (Sorted_merge_sort partitionKeyLe).
Qed.

Lemma elem_of_storeQueryRowKey t rowKey e :
  e ∈ storeQueryRowKey t rowKey ↔ ∃ o, t !! (o, rowKey) = Some e.
Proof.
  unfold storeQueryRowKey. rewrite merge_sort_Permutation, list_elem_of_fmap. split.
  - intros ([[o rk] e'] & -> & [Hrk Hin]%list_elem_of_filter).
    simpl in Hrk. subst rk. exists o. by apply elem_of_map_to_list in Hin.
  - intros [o Ho]. exists ((o, rowKey), e). split; [ done | ].
    apply list_elem_of_filter. split; [ done | ].
    by apply elem_of_map_to_list.
Qed.

Lemma storeQueryRowKey_none t rowKey :
  (∀ o, t !! (o, rowKey) = None) → storeQueryRowKey t rowKey = [].
Proof.
  intros Hnone. destruct (storeQueryRowKey t rowKey) as [|e l] eqn:Hq; [ done | ].
  assert (e ∈ storeQueryRowKey t rowKey) as Hin by (rewrite Hq; left).
  apply elem_of_storeQueryRowKey in Hin as [o Ho]. by rewrite Hnone in Ho.
Qed.

Lemma NoDup_all_equal {A} (x : A) (l : list A) :
  NoDup l → x ∈ l → (∀ y, y ∈ l → y = x) → l = [x].
Proof.
  intros Hnd Hin Hall. destruct l as [|a l]; [ by apply elem_of_nil in Hin | ].
  assert (a = x) as -> by (apply Hall; left).
  destruct l as [|b l]; [ done | ].
  assert (b = x) as -> by (apply Hall; right; left).
  apply NoDup_cons in Hnd as [Hnotin _]. exfalso. apply Hnotin. left.
Qed.

Lemma storeQueryRowKey_single t rowKey o e :
  t !! (o, rowKey) = Some e →
  (∀ o', o' ≠ o → t !! (o', rowKey) = None) →
  storeQueryRowKey t rowKey = [e].
Proof.
  intros Ho Hothers. unfold storeQueryRowKey.
  rewrite (NoDup_all_equal ((o, rowKey), e)
             (filter (λ kv : string * string * Entity, kv.1.2 = rowKey) (map_to_list t)));
    [ done | | | ].
  - apply NoDup_filter, NoDup_map_to_list.
  - apply list_elem_of_filter. split; [ done | by apply elem_of_map_to_list ].
  - intros [[o' rk] e'] [Hrk Hin]%list_elem_of_filter. simpl in Hrk. subst rk.
    apply elem_of_map_to_list in Hin.
    destruct (decide (o' = o)) as [->|Hne]; [ congruence | ].
    by rewrite (Hothers o' Hne) in Hin.
Qed.

(** What the status query answers, by the state of the account. *)
Lemma httpTrigger_answer w taskTableName s id :
  rejects w AtQuery = None →
  StatusQuery.httpTrigger w taskTableName id (Orchestrator.start s)
  = (match s !! taskTableName with
     | Some t => Return (head (storeQueryRowKey t id))
     | None => Throw tableNotFound
     end,
     emit AtQuery (TableQueryEntities taskTableName id) (Orchestrator.start s)).
Proof.
  intros Hq. unfold StatusQuery.httpTrigger, StatusQuery.queryEntities, bind, ret.
  rewrite Hq. cbn [tables Orchestrator.start].
  destruct (s !! taskTableName); [ by rewrite data_head | done ].
Qed.

(** C8, as the specification states it, fails for an account on which no
    run with a run-id was started yet: the table was never created, no
    record with the run-id exists anywhere, and the status query, which
    neither creates the table nor catches, throws the table service's
    error instead of answering with an absent result. *)
Lemma C8_never_created_table_throws :
  let s := tables (Orchestrator.main Scenario.allGood (Scenario.acme None)
                     (Orchestrator.start ∅)).2 in
  let r := StatusQuery.httpTrigger Scenario.allGood "upgradeProcess" "r1"
             (Orchestrator.start s) in
  rejects Scenario.allGood AtQuery = None
  ∧ (∀ tableName o, rowsOf s tableName !! (o, "r1") = None)
  ∧ r.1 = Throw tableNotFound
  ∧ r.1 ≠ Return None.
Proof.
  intros s r.
  assert (s = ∅) as Hs by (vm_compute; reflexivity).
  split; [ reflexivity | ].
  split; [ intros tableName o; rewrite Hs; unfold rowsOf;
           rewrite lookup_empty; apply lookup_empty | ].
  assert (r.1 = Throw tableNotFound) as Hr by (vm_compute; reflexivity).
  split; [ exact Hr | ]. rewrite Hr. discriminate.
Qed.

(** C8, amended: when the table service answers the query and the table
    that the configuration names exists, the status query returns the
    first, in the order of the service, of the records of that table
    whose RowKey is the run-id: nothing (undefined, no exception) when no
    record has that RowKey, and the record when exactly one has.  When
    the table does not exist the query throws the table service's error.
    The query changes no table. *)
Theorem C8_status_query w taskTableName s id :
  rejects w AtQuery = None →
  let r := StatusQuery.httpTrigger w taskTableName id (Orchestrator.start s) in
  (s !! taskTableName = None → r.1 = Throw tableNotFound)
  ∧ (∀ t, s !! taskTableName = Some t →
       r.1 = Return (head (storeQueryRowKey t id))
       ∧ ((∀ o, t !! (o, id) = None) → r.1 = Return None)
       ∧ (∀ o e, t !! (o, id) = Some e →
                 (∀ o', o' ≠ o → t !! (o', id) = None) →
                 r.1 = Return (Some e)))
  ∧ tables r.2 = s.
Proof.
  intros Hq r. subst r. rewrite (httpTrigger_answer _ _ _ _ Hq). cbn [fst snd].
  split; [ by intros -> | ].
  split; [ | reflexivity ].
  intros t ->.
  split; [ reflexivity | ].
  split.
  - intros Hnone. by rewrite storeQueryRowKey_none.
  - intros o e Ho Hothers. by rewrite (storeQueryRowKey_single _ _ o e).
Qed.

Lemma C8_status_query_witness :
  let s :=
    tables (Orchestrator.main Scenario.transformationThrows
              (Scenario.acme (Some "r1")) (Orchestrator.start ∅)).2 in
  (StatusQuery.httpTrigger Scenario.allGood "upgradeProcess" "r2"
     (Orchestrator.start s)).1 = Return None
  ∧ (StatusQuery.httpTrigger Scenario.allGood "upgradeProcess" "r1"
       (Orchestrator.start s)).1
    = Return (rowsOf s "upgradeProcess" !! ("acme", "r1"))
  ∧ int32Property (default ∅ (rowsOf s "upgradeProcess" !! ("acme", "r1"))) "status"
    = Some (-1)
  ∧ (StatusQuery.httpTrigger Scenario.allGood "tasks" "r1"
       (Orchestrator.start s)).1 = Throw tableNotFound.
Proof.
  intros s.
  pose (t := rowsOf s "upgradeProcess").
  assert (s !! "upgradeProcess" = Some t) as Ht by (vm_compute; reflexivity).
  destruct (C8_status_query Scenario.allGood "upgradeProcess" s "r2" eq_refl)
    as (_ & Hfound2 & _).
  destruct (C8_status_query Scenario.allGood "upgradeProcess" s "r1" eq_refl)
    as (_ & Hfound1 & _).
  destruct (C8_status_query Scenario.allGood "tasks" s "r1" eq_refl)
    as (Hmissing & _).
  split; [ | split; [ | split ] ].
  - rewrite (proj1 (Hfound2 t Ht)). vm_compute. reflexivity.
  - rewrite (proj1 (Hfound1 t Ht)). vm_compute. reflexivity.
  - vm_compute. reflexivity.
  - apply Hmissing. vm_compute. reflexivity.
Defined.
(** [Forall] over a list that is known: [tac] proves each element. *)
Ltac forall_known tac :=
  repeat (apply List.Forall_cons; [ tac | ]); apply List.Forall_nil.

(** ** Failures of the table service *)

(** X1: the first two table calls are outside the [try].  When one of
    them is rejected, [main] throws that error at once: no collaborator
    action is started, the handler's write is not attempted and the rows
    of the table are left as they were. *)
Theorem init_failure_aborts_run w options store i e :
  truthy (Orchestrator.id options) = Some i →
  rejects w AtCreateTable = Some e
  ∨ (rejects w AtCreateTable = None ∧ rejects w AtInitRecord = Some e) →
  let r := Orchestrator.main w options (Orchestrator.start store) in
  r.1 = Throw e
  ∧ ledger r.2 = rowsOf store Orchestrator.tableName
  ∧ Forall (λ s, s = AtCreateTable ∨ s = AtInitRecord) (sites (trace r.2)).
Proof.
  intros Hid Hrej r.
  remember r as r' eqn:H. subst r. symmetry in H.
  unfold_run H. with_id H Hid.
  destruct Hrej as [Hc|[Hc Hi]]; rewrite ?Hc, ?Hi in H; cbn in H; subst r'.
  all: split; [ reflexivity | split; [ read_ledger; reflexivity | ] ].
  all: cbn; forall_known auto.
Qed.

Lemma init_failure_aborts_run_witness :
  let r := Orchestrator.main (Scenario.failingAt AtInitRecord (Failed "503"))
             (Scenario.acme (Some "r1")) (Orchestrator.start ∅) in
  r.1 = Throw (Failed "503")
  ∧ ledger r.2 = rowsOf ∅ Orchestrator.tableName
  ∧ Forall (λ s, s = AtCreateTable ∨ s = AtInitRecord) (sites (trace r.2)).
Proof.
  apply (init_failure_aborts_run (Scenario.failingAt AtInitRecord (Failed "503"))
           (Scenario.acme (Some "r1")) ∅ "r1" (Failed "503")).
  - reflexivity.
  - right. split; reflexivity.
Defined.

(** Two answers of the environment for one site. *)
Ltac same_answer :=
  match goal with
  | H1 : rejects ?w ?s = None, H2 : rejects ?w ?s = Some _ |- _ =>
      rewrite H1 in H2; discriminate H2
  | H1 : rejects ?w ?s = Some _, H2 : rejects ?w ?s = Some _ |- _ =>
      rewrite H1 in H2; injection H2 as <-
  end.

Ltac split_sites Hin :=
  repeat (apply elem_of_cons in Hin as [Hin|Hin];
          [ first [ discriminate Hin | injection Hin as -> ] | ]);
  try (by apply elem_of_nil in Hin).

(** X2: when the table service rejects the write of the status value [s]
    inside the [try], the action of step [s] is never started, the
    handler runs as for any failure, and (its write accepted) the row has
    [status = error] and keeps as [lastStatus] the value before [s]. *)
Theorem status_write_rejected w options store i s e :
  truthy (Orchestrator.id options) = Some i →
  rejects w (AtStatus s) = Some e →
  rejects w AtErrorStatus = None →
  let r := Orchestrator.main w options (Orchestrator.start store) in
  AtStatus s ∈ sites (trace r.2) →
  r.1 = Throw e
  ∧ Forall (λ a, stage a ≠ Some s) (sites (trace r.2))
  ∧ rowInt32 (ledger r.2) (Orchestrator.owner options) i "status"
    = Some (Status.toZ Status.error)
  ∧ rowInt32 (ledger r.2) (Orchestrator.owner options) i "lastStatus"
    = Some (Status.toZ s - 1).
Proof.
  intros Hid Hrej Herr r Hin.
  remember r as r' eqn:H. subst r. symmetry in H.
  unfold_run H. with_id H Hid. rewrite ?Herr in H. explore H.
  all: subst r'; cbn [fst snd trace setTables emit sites fmap list_fmap ev_site] in *; read_ledger.
  all: split_sites Hin; same_answer.
  all: unfold rowInt32; rewrite ?rowProperty_mergeRow, ?rowProperty_insert.
  all: split; [ reflexivity | ].
  all: split; [ forall_known discriminate | ].
  all: split; vm_compute; reflexivity.
Qed.

Lemma status_write_rejected_witness :
  let r := Orchestrator.main
             (Scenario.failingAt (AtStatus Status.push) (Failed "503"))
             (Scenario.acme (Some "r1")) (Orchestrator.start ∅) in
  r.1 = Throw (Failed "503")
  ∧ Forall (λ a, stage a ≠ Some Status.push) (sites (trace r.2))
  ∧ rowInt32 (ledger r.2) "acme" "r1" "status" = Some (-1)
  ∧ rowInt32 (ledger r.2) "acme" "r1" "lastStatus" = Some 7.
Proof.
  apply (status_write_rejected
           (Scenario.failingAt (AtStatus Status.push) (Failed "503"))
           (Scenario.acme (Some "r1")) ∅ "r1" Status.push (Failed "503")).
  - reflexivity.
  - reflexivity.
  - reflexivity.
  - refine (bool_decide_unpack _ _). vm_compute. exact I.
Defined.

(** ** What the row of a run holds, whatever the outcome *)

(** X3: once the record of a run is written, [lastStatus] is always one
    of the values [auth] to [done], never [error]; [status] is either
    equal to [lastStatus] or [error]; and it is [error] exactly when the
    run threw and the table service accepted the handler's write. *)
Theorem row_status_invariant w options store i :
  truthy (Orchestrator.id options) = Some i →
  rejects w AtCreateTable = None →
  rejects w AtInitRecord = None →
  let r := Orchestrator.main w options (Orchestrator.start store) in
  ∃ n m,
    rowInt32 (ledger r.2) (Orchestrator.owner options) i "lastStatus" = Some n
    ∧ rowInt32 (ledger r.2) (Orchestrator.owner options) i "status" = Some m
    ∧ (0 ≤ n ≤ 11)%Z
    ∧ (m = n ∨ m = -1)
    ∧ (m = -1 ↔ (∃ e, r.1 = Throw e) ∧ rejects w AtErrorStatus = None).
Proof.
  intros Hid Hc Hi r.
  remember r as r' eqn:H. subst r. symmetry in H.
  unfold_run H. with_id H Hid. rewrite Hc, Hi in H. cbn in H. explore H.
  all: subst r'; cbn [fst snd trace setTables emit] in *; read_ledger.
  all: unfold rowInt32; rewrite ?rowProperty_mergeRow, ?rowProperty_insert.
  all: lazymatch goal with
       | |- ∃ n m, ?a = Some n ∧ ?b = Some m ∧ _ =>
           let va := eval vm_compute in a in
           let vb := eval vm_compute in b in
           lazymatch va with
           | Some ?n0 => lazymatch vb with Some ?m0 => exists n0, m0 end
           end
       end.
  all: split; [ vm_compute; reflexivity | ].
  all: split; [ vm_compute; reflexivity | ].
  all: split; [ lia | ].
  all: split; [ first [ left; reflexivity | right; reflexivity ] | ].
  all: split;
    [ intros Hm; first [ discriminate Hm | split; [ eexists; reflexivity | reflexivity ] ]
    | intros [[e' He'] Hacc];
      first [ reflexivity | discriminate He' | discriminate Hacc ] ].
Qed.

Lemma row_status_invariant_witness :
  let r := Orchestrator.main pushRefusedStoreDown (Scenario.acme (Some "r1"))
             (Orchestrator.start ∅) in
  r.1 = Throw (Failed "503")
  ∧ rowInt32 (ledger r.2) "acme" "r1" "lastStatus" = Some 8
  ∧ rowInt32 (ledger r.2) "acme" "r1" "status" = Some 8.
Proof.
  intros r.
  assert (truthy (Orchestrator.id (Scenario.acme (Some "r1"))) = Some "r1")
    as Hid by reflexivity.
  assert (rejects pushRefusedStoreDown AtCreateTable = None) as Hc by reflexivity.
  assert (rejects pushRefusedStoreDown AtInitRecord = None) as Hi by reflexivity.
  destruct (row_status_invariant pushRefusedStoreDown (Scenario.acme (Some "r1"))
              ∅ "r1" Hid Hc Hi)
    as (n & m & Hn & Hm & _).
  split; [ vm_compute; reflexivity | ].
  assert (n = 8) as -> by (vm_compute in Hn; congruence).
  assert (m = 8) as -> by (vm_compute in Hm; congruence).
  split; [ exact Hn | exact Hm ].
Defined.

(** X4: in every run with a run-id, failing or not, the [lastStatus]
    values of the ledger writes form a beginning of the enumeration
    [auth], ..., [done]: none is skipped, repeated or [error].  The
    [status] values are the same, followed by one [error] when the
    handler ran. *)
Theorem writes_follow_enumeration w options store i :
  truthy (Orchestrator.id options) = Some i →
  let tr := trace (Orchestrator.main w options (Orchestrator.start store)).2 in
  omap lastStatusWritten tr `prefix_of` (Status.toZ <$> Status.progression)
  ∧ (omap statusWritten tr = omap lastStatusWritten tr
     ∨ omap statusWritten tr
       = (omap lastStatusWritten tr ++ [Status.toZ Status.error])%list).
Proof.
  intros Hid tr.
  remember (Orchestrator.main w options (Orchestrator.start store)) as r eqn:H.
  symmetry in H. unfold_run H. with_id H Hid. explore H.
  all: subst r tr; cbn [snd trace setTables emit].
  all: split;
    [ refine (bool_decide_unpack _ _); vm_compute; exact I
    | first [ left; vm_compute; reflexivity | right; vm_compute; reflexivity ] ].
Qed.

Lemma writes_follow_enumeration_witness :
  let tr := trace (Orchestrator.main Scenario.transformationThrows
                     (Scenario.acme (Some "r1")) (Orchestrator.start ∅)).2 in
  omap lastStatusWritten tr = [0; 1; 2; 3; 4; 5]
  ∧ omap lastStatusWritten tr `prefix_of` (Status.toZ <$> Status.progression).
Proof.
  intros tr. split; [ vm_compute; reflexivity | ].
  apply (writes_follow_enumeration Scenario.transformationThrows
           (Scenario.acme (Some "r1")) ∅ "r1").
  reflexivity.
Defined.

(** X5: a run with a run-id writes to one row only: every entity it
    sends to the table service carries the key (owner, run-id), every
    row with another key is at the end what it was at the start, and so
    is every other table of the account. *)
Theorem run_writes_one_row w options store i :
  truthy (Orchestrator.id options) = Some i →
  let r := Orchestrator.main w options (Orchestrator.start store) in
  let key := (Orchestrator.owner options, i) in
  Forall (λ ev, ∀ e, writtenEntity ev = Some e → entityKey e = Some key)
    (trace r.2)
  ∧ (∀ k, k ≠ key → ledger r.2 !! k = rowsOf store Orchestrator.tableName !! k)
  ∧ (∀ name, name ≠ Orchestrator.tableName → tables r.2 !! name = store !! name).
Proof.
  intros Hid r key.
  remember r as r' eqn:H. subst r. symmetry in H.
  unfold_run H. with_id H Hid. explore H.
  all: subst r' key; cbn [snd trace setTables emit].
  all: split;
    [ forall_known
        ltac:(cbn; intros ? He;
              first [ discriminate He | injection He as <-; reflexivity ])
    | split;
      [ read_ledger; intros k Hk;
        assert ((Orchestrator.owner options, i) ≠ k) as Hk'
          by (intros Heq; apply Hk; symmetry; exact Heq);
        rewrite ?(lookup_mergeRow_ne _ _ _ _ Hk'), ?(lookup_insert_ne _ _ _ _ Hk');
        reflexivity
      | cbn [tables trace setTables emit Orchestrator.start]; intros name Hname;
        assert (Orchestrator.tableName ≠ name) as Hname'
          by (intros Heq; apply Hname; symmetry; exact Heq);
        rewrite ?(lookup_insert_ne _ _ _ _ Hname'),
          ?(lookup_storeCreate_ne _ _ _ Hname);
        reflexivity ] ].
Qed.

Lemma run_writes_one_row_witness :
  let store : TableStore :=
    {[ "upgradeProcess" :=
         {[ ("globex", "r1") := statusEntry "r1" "globex" Status.done ]} ]} in
  let r := Orchestrator.main Scenario.allGood (Scenario.acme (Some "r1"))
             (Orchestrator.start store) in
  ledger r.2 !! ("globex", "r1")
  = rowsOf store Orchestrator.tableName !! ("globex", "r1").
Proof.
  intros store r.
  apply (run_writes_one_row Scenario.allGood (Scenario.acme (Some "r1")) store "r1").
  - reflexivity.
  - discriminate.
Defined.

(** X6: the steps never touch the parameters of the record: once the
    record of a run is written, its [owner], [repo], [branch] and
    [version] are those of the submission ([master] and [Latest] when
    left out) at the end of the run, whether it returns or throws. *)
Theorem run_parameters_kept w options store i :
  truthy (Orchestrator.id options) = Some i →
  rejects w AtCreateTable = None →
  rejects w AtInitRecord = None →
  let r := Orchestrator.main w options (Orchestrator.start store) in
  let o := Orchestrator.owner options in
  rowProperty (ledger r.2) o i "owner" = Some (EdmString o)
  ∧ rowProperty (ledger r.2) o i "repo" = Some (EdmString (Orchestrator.repo options))
  ∧ rowProperty (ledger r.2) o i "branch"
    = Some (EdmString (default "master" (Orchestrator.branch options)))
  ∧ rowProperty (ledger r.2) o i "version"
    = Some (EdmInt32 (default (Latest w) (Orchestrator.version options))).
Proof.
  intros Hid Hc Hi r o.
  remember r as r' eqn:H. subst r. symmetry in H.
  remember (default "master" (Orchestrator.branch options)) as b eqn:Hb.
  unfold_run H. with_id H Hid. rewrite Hc, Hi, <- ?Hb in H. cbn in H.
  explore H.
  all: subst r' o; cbn [snd trace setTables emit]; read_ledger.
  all: rewrite ?rowProperty_mergeRow, ?rowProperty_insert.
  all: unfold Orchestrator.entry; rewrite <- ?Hb.
  all: repeat split; vm_compute; reflexivity.
Qed.

Lemma run_parameters_kept_witness :
  let r := Orchestrator.main Scenario.transformationThrows
             (Scenario.globex (Some "r9")) (Orchestrator.start ∅) in
  rowProperty (ledger r.2) "globex" "r9" "repo" = Some (EdmString "gadgets")
  ∧ rowProperty (ledger r.2) "globex" "r9" "branch" = Some (EdmString "master")
  ∧ rowProperty (ledger r.2) "globex" "r9" "version" = Some (EdmInt32 38).
Proof.
  intros r.
  destruct (run_parameters_kept Scenario.transformationThrows
              (Scenario.globex (Some "r9")) ∅ "r9")
    as (_ & Hrepo & Hbranch & Hversion); [ reflexivity .. | ].
  split; [ exact Hrepo | split; [ exact Hbranch | exact Hversion ] ].
Defined.

(** ** The order of the calls *)

Ltac known_list :=
  lazymatch goal with
  | |- Forall ?P ?l => let l' := eval vm_compute in l in change (Forall P l')
  end.

Ltac either_branch options :=
  try destruct (default "master" (Orchestrator.branch options));
  try destruct (default "master" (DoUpgrade.branch options)).

(** X7: the calls of a run are always a beginning of one fixed sequence,
    that of the source, followed by the handler's write when a failure
    was caught: no call is skipped, repeated or reordered.  The table
    calls are part of the sequence exactly when the run-id is present,
    the checkout of the base branch exactly when the branch name is not
    empty.  The older orchestrator follows the same sequence without the
    star. *)
Theorem calls_follow_program w store :
  (∀ options,
     withoutHandler (sites (trace (Orchestrator.main w options (Orchestrator.start store)).2))
     `prefix_of`
     fullRun (bool_decide (is_Some (truthy (Orchestrator.id options))))
       (nonEmpty (default "master" (Orchestrator.branch options))))
  ∧ (∀ options,
       sites (trace (DoUpgrade.main w options (Orchestrator.start store)).2)
       `prefix_of`
       filter (λ s, s ≠ AtStar)
         (fullRun false (nonEmpty (default "master" (DoUpgrade.branch options))))).
Proof.
  split; intros options.
  - remember (Orchestrator.main w options (Orchestrator.start store)) as r eqn:H.
    symmetry in H.
    destruct (truthy (Orchestrator.id options)) as [i|] eqn:Hid.
    + unfold_run H. with_id H Hid. explore H.
      all: subst r; cbn [snd trace setTables emit]; either_branch options.
      all: refine (bool_decide_unpack _ _); vm_compute; exact I.
    + unfold_run H. rewrite Hid in H. cbn in H. explore H.
      all: subst r; cbn [snd trace setTables emit]; either_branch options.
      all: refine (bool_decide_unpack _ _); vm_compute; exact I.
  - remember (DoUpgrade.main w options (Orchestrator.start store)) as r eqn:H.
    symmetry in H. unfold_run H. cbn in H. explore H.
    all: subst r; cbn [snd trace setTables emit]; either_branch options.
    all: refine (bool_decide_unpack _ _); vm_compute; exact I.
Qed.

(** X8: a run stops at the first call that fails.  Every call before the
    last one of the body was accepted; and a run that returns had all its
    calls accepted, read a non-empty log and returns the URL of the pull
    request it created. *)
Theorem run_stops_at_first_failure w options store :
  let r := Orchestrator.main w options (Orchestrator.start store) in
  Forall (λ s, rejects w s = None)
    (removelast (withoutHandler (sites (trace r.2))))
  ∧ (∀ url, r.1 = Return url →
       url = pullUrl w
       ∧ Forall (λ s, rejects w s = None) (sites (trace r.2))
       ∧ is_Some (Orchestrator.sha (commits w))
       ∧ last (sites (trace r.2))
         = Some (if truthy (Orchestrator.id options) is Some _
                 then AtStatus Status.done else AtPullRequest)).
Proof.
  intros r. remember r as r' eqn:H. subst r. symmetry in H.
  destruct (truthy (Orchestrator.id options)) as [i|] eqn:Hid.
  - unfold_run H. with_id H Hid. explore H.
    all: subst r'; cbn [fst snd trace setTables emit].
    all: split; [ known_list; forall_known assumption | ].
    all: intros url Hret; first [ discriminate Hret | injection Hret as <- ].
    all: split; [ reflexivity | ].
    all: split; [ known_list; forall_known assumption | ].
    all: split; [ eauto | reflexivity ].
  - unfold_run H. rewrite Hid in H. cbn in H. explore H.
    all: subst r'; cbn [fst snd trace setTables emit].
    all: split; [ known_list; forall_known assumption | ].
    all: intros url Hret; first [ discriminate Hret | injection Hret as <- ].
    all: split; [ reflexivity | ].
    all: split; [ known_list; forall_known assumption | ].
    all: split; [ eauto | reflexivity ].
Qed.

(** X9: when no call fails and the log is not empty, both orchestrators
    return the URL of the pull request; with a run-id the row then holds
    [status = lastStatus = done]. *)
Theorem run_returns_when_nothing_fails w store :
  (∀ s, rejects w s = None) →
  commits w ≠ [] →
  (∀ options,
     let r := Orchestrator.main w options (Orchestrator.start store) in
     r.1 = Return (pullUrl w)
     ∧ ∀ i, truthy (Orchestrator.id options) = Some i →
            rowInt32 (ledger r.2) (Orchestrator.owner options) i "status"
            = Some (Status.toZ Status.done)
            ∧ rowInt32 (ledger r.2) (Orchestrator.owner options) i "lastStatus"
              = Some (Status.toZ Status.done))
  ∧ (∀ options,
       (DoUpgrade.main w options (Orchestrator.start store)).1 = Return (pullUrl w)).
Proof.
  intros Hall Hlog.
  assert (is_Some (Orchestrator.sha (commits w))) as [tree0 Hsha].
  { destruct (commits w); [ done | by eexists ]. }
  assert (∀ s e, rejects w s = Some e → False) as Hnone.
  { intros s e He. by rewrite Hall in He. }
  split; intros options.
  - intros r. remember r as r' eqn:H. subst r. symmetry in H.
    destruct (truthy (Orchestrator.id options)) as [i|] eqn:Hid.
    + unfold_run H. with_id H Hid. rewrite Hsha in H. explore H.
      all: try (exfalso; eapply Hnone; eassumption).
      all: subst r'; cbn [fst snd setTables emit]; read_ledger.
      all: split; [ reflexivity | intros i' [= <-] ].
      all: unfold rowInt32; rewrite !rowProperty_mergeRow.
      all: split; vm_compute; reflexivity.
    + unfold_run H. rewrite Hid in H. rewrite Hsha in H. cbn in H. explore H.
      all: try (exfalso; eapply Hnone; eassumption).
      all: subst r'; split; [ reflexivity | intros i' [=] ].
  - remember (DoUpgrade.main w options (Orchestrator.start store)) as r eqn:H.
    symmetry in H. unfold_run H. rewrite Hsha in H. cbn in H. explore H.
    all: try (exfalso; eapply Hnone; eassumption).
    all: subst r; reflexivity.
Qed.

Lemma run_returns_when_nothing_fails_witness :
  (Orchestrator.main Scenario.allGood (Scenario.acme None) (Orchestrator.start ∅)).1
  = Return "https://api.github.com/repos/acme/widgets/pulls/7"
  ∧ (DoUpgrade.main Scenario.allGood Scenario.acmeOld (Orchestrator.start ∅)).1
    = Return "https://api.github.com/repos/acme/widgets/pulls/7".
Proof.
  destruct (run_returns_when_nothing_fails Scenario.allGood ∅) as [Hnew Hold].
  - intros s. reflexivity.
  - discriminate.
  - split; [ exact (proj1 (Hnew (Scenario.acme None))) | exact (Hold Scenario.acmeOld) ].
Defined.

(** ** The arguments of the calls *)

Ltac one_ref Hin :=
  cbn in Hin;
  first [ by apply elem_of_nil in Hin
        | apply list_elem_of_singleton in Hin; subst ].

(** X10: the name given to [git.branch] is the one the run goes on with:
    the checkout of the working branch and the push name the same
    branch, and the head of the pull request is that name after
    ["ts-upgrade-bot:"], in both orchestrators.  A run creates at most
    one branch. *)
Theorem working_branch_used_throughout w store :
  (∀ options,
     let tr := trace (Orchestrator.main w options (Orchestrator.start store)).2 in
     (length (branchRefs tr) ≤ 1)%nat
     ∧ ∀ b, b ∈ branchRefs tr →
            Forall (eq b) (omap workingRef tr)
            ∧ Forall (eq ("ts-upgrade-bot:" +:+ b)) (omap pullHead tr))
  ∧ (∀ options,
       let tr := trace (DoUpgrade.main w options (Orchestrator.start store)).2 in
       (length (branchRefs tr) ≤ 1)%nat
       ∧ ∀ b, b ∈ branchRefs tr →
              Forall (eq b) (omap workingRef tr)
              ∧ Forall (eq ("ts-upgrade-bot:" +:+ b)) (omap pullHead tr)).
Proof.
  split; intros options tr.
  - remember (Orchestrator.main w options (Orchestrator.start store)) as r eqn:H.
    symmetry in H.
    destruct (truthy (Orchestrator.id options)) as [i|] eqn:Hid.
    + unfold_run H. with_id H Hid. explore H.
      all: subst r tr; cbn [snd trace setTables emit].
      all: split; [ vm_compute; lia | intros b Hin; one_ref Hin ].
      all: split; known_list; forall_known ltac:(exact eq_refl).
    + unfold_run H. rewrite Hid in H. cbn in H. explore H.
      all: subst r tr; cbn [snd trace setTables emit].
      all: split; [ vm_compute; lia | intros b Hin; one_ref Hin ].
      all: split; known_list; forall_known ltac:(exact eq_refl).
  - remember (DoUpgrade.main w options (Orchestrator.start store)) as r eqn:H.
    symmetry in H. unfold_run H. cbn in H. explore H.
    all: subst r tr; cbn [snd trace setTables emit].
    all: split; [ vm_compute; lia | intros b Hin; one_ref Hin ].
    all: split; known_list; forall_known ltac:(exact eq_refl).
Qed.

(** X11: every git call of a run and the transformation work in one
    directory, the one [path.join] gives for [os.tmpdir()] and the
    identifier that [uuid.v4()] gave this run, and what is cloned is the
    fork that [createFork] returned, in both orchestrators. *)
Theorem one_working_directory w store :
  let dir := path_join w (tmpdir w) (uuid_v4 w) in
  (∀ options,
     let tr := trace (Orchestrator.main w options (Orchestrator.start store)).2 in
     Forall (λ ev, ∀ d, gitDir (ev_call ev) = Some d → d = dir) tr
     ∧ Forall (eq (clone_url (forkData w))) (omap cloneUrl tr))
  ∧ (∀ options,
       let tr := trace (DoUpgrade.main w options (Orchestrator.start store)).2 in
       Forall (λ ev, ∀ d, gitDir (ev_call ev) = Some d → d = dir) tr
       ∧ Forall (eq (clone_url (forkData w))) (omap cloneUrl tr)).
Proof.
  intros dir. split; intros options tr.
  - remember (Orchestrator.main w options (Orchestrator.start store)) as r eqn:H.
    symmetry in H.
    destruct (truthy (Orchestrator.id options)) as [i|] eqn:Hid.
    + unfold_run H. with_id H Hid. explore H.
      all: subst r tr dir; cbn [snd trace setTables emit].
      all: split;
        [ forall_known
            ltac:(cbn; intros ? Hd;
                  first [ discriminate Hd | injection Hd as <-; reflexivity ])
        | known_list; forall_known ltac:(exact eq_refl) ].
    + unfold_run H. rewrite Hid in H. cbn in H. explore H.
      all: subst r tr dir; cbn [snd trace setTables emit].
      all: split;
        [ forall_known
            ltac:(cbn; intros ? Hd;
                  first [ discriminate Hd | injection Hd as <-; reflexivity ])
        | known_list; forall_known ltac:(exact eq_refl) ].
  - remember (DoUpgrade.main w options (Orchestrator.start store)) as r eqn:H.
    symmetry in H. unfold_run H. cbn in H. explore H.
    all: subst r tr dir; cbn [snd trace setTables emit].
    all: split;
      [ forall_known
          ltac:(cbn; intros ? Hd;
                first [ discriminate Hd | injection Hd as <-; reflexivity ])
      | known_list; forall_known ltac:(exact eq_refl) ].
Qed.

(** X12: the base branch is the [branch] of the options, [master] when
    it is left out: the first checkout, the log and the base of the pull
    request all name it.  When it is the empty string the first checkout
    is skipped, while the log and the pull request are still asked with
    the empty name. *)
Theorem base_branch_of_run w options store :
  let tr := trace (Orchestrator.main w options (Orchestrator.start store)).2 in
  let base := default "master" (Orchestrator.branch options) in
  Forall (eq base) (omap baseRef tr)
  ∧ (base = EmptyString → AtCheckoutBase ∉ sites tr)
  ∧ (Orchestrator.branch options = None → Forall (eq "master") (omap baseRef tr)).
Proof.
  intros tr base.
  assert (Forall (eq base) (omap baseRef tr)
          ∧ (base = EmptyString → AtCheckoutBase ∉ sites tr)) as [Hbase Hskip].
  { remember (Orchestrator.main w options (Orchestrator.start store)) as r eqn:H.
    symmetry in H. remember base as b eqn:Hb. unfold base in Hb.
    destruct (truthy (Orchestrator.id options)) as [i|] eqn:Hid.
    - unfold_run H. with_id H Hid. rewrite <- ?Hb in H. explore H.
      all: subst r tr; cbn [snd trace setTables emit].
      all: split;
        [ known_list; forall_known ltac:(exact eq_refl)
        | intros Hempty; try discriminate Hempty; try subst b;
          refine (bool_decide_unpack _ _); vm_compute; exact I ].
    - unfold_run H. rewrite Hid in H. rewrite <- ?Hb in H. cbn in H. explore H.
      all: subst r tr; cbn [snd trace setTables emit].
      all: split;
        [ known_list; forall_known ltac:(exact eq_refl)
        | intros Hempty; try discriminate Hempty; try subst b;
          refine (bool_decide_unpack _ _); vm_compute; exact I ]. }
  split; [ exact Hbase | split; [ exact Hskip | ] ].
  intros Hnone. unfold base in Hbase. by rewrite Hnone in Hbase.
Qed.

(** ** The two orchestrators *)

(** X13: the older orchestrator never calls the table service and never
    stars the repository, and it leaves the tables of the account as they
    are. *)
Theorem older_orchestrator_has_no_ledger w options store :
  let r := DoUpgrade.main w options (Orchestrator.start store) in
  tables r.2 = store
  ∧ ledger r.2 = rowsOf store Orchestrator.tableName
  ∧ Forall (λ ev, isLedgerCall (ev_call ev) = false ∧ ev_site ev ≠ AtStar)
      (trace r.2).
Proof.
  intros r. remember r as r' eqn:H. subst r. symmetry in H.
  unfold_run H. cbn in H. explore H.
  all: subst r'; split; [ reflexivity | split; [ reflexivity | ] ].
  all: cbn [snd trace]; forall_known ltac:(split; [ reflexivity | discriminate ]).
Qed.
(** ** The status query and the ledger of a run *)

(** X15: when the table it is configured for exists, the status query
    answers with a record of that table whose RowKey is the run-id asked
    for, never with another one; it answers with a record whenever there
    is one, also when several owners hold that run-id; and it answers
    undefined exactly when there is none.  When the table does not exist
    it throws the table service's error, and when the table service
    rejects the query it throws that error.  No table is changed. *)
Theorem status_query_sound_and_complete w taskTableName store id :
  let r := StatusQuery.httpTrigger w taskTableName id (Orchestrator.start store) in
  (rejects w AtQuery = None →
     (store !! taskTableName = None → r.1 = Throw tableNotFound)
     ∧ ∀ t, store !! taskTableName = Some t →
            (∀ e, r.1 = Return (Some e) → ∃ o, t !! (o, id) = Some e)
            ∧ ((∃ o e, t !! (o, id) = Some e) → ∃ e, r.1 = Return (Some e))
            ∧ (r.1 = Return None ↔ ∀ o, t !! (o, id) = None))
  ∧ (∀ e, rejects w AtQuery = Some e → r.1 = Throw e)
  ∧ tables r.2 = store
  ∧ sites (trace r.2) = [AtQuery].
Proof.
  intros r. subst r.
  unfold StatusQuery.httpTrigger, StatusQuery.queryEntities, bind, ret.
  destruct (rejects w AtQuery) as [e0|] eqn:Hq; cbn.
  { split; [ done | ]. split; [ by intros e [= <-] | done ]. }
  destruct (store !! taskTableName) as [t0|] eqn:Ht; cbn.
  2: { split; [ intros _; split; [ done | by intros t [=] ] | done ]. }
  split; [ intros _ | done ].
  split; [ by intros [=] | ].
  intros t [= <-]. rewrite data_head.
  destruct (storeQueryRowKey t0 id) as [|e l] eqn:Hl; cbn.
  - assert (∀ o, t0 !! (o, id) = None) as Hnone.
    { intros o. destruct (t0 !! (o, id)) as [e|] eqn:Ho; [ | done ].
      assert (e ∈ storeQueryRowKey t0 id) as Hin
        by (apply elem_of_storeQueryRowKey; eauto).
      rewrite Hl in Hin. by apply elem_of_nil in Hin. }
    split; [ by intros e [=] | ].
    split; [ intros (o & e & Ho); by rewrite Hnone in Ho | done ].
  - assert (∃ o, t0 !! (o, id) = Some e) as [o Ho].
    { apply elem_of_storeQueryRowKey. rewrite Hl. left. }
    split; [ intros e' [= <-]; eauto | ].
    split; [ eauto | ].
    split; [ by intros [=] | intros Hnone; by rewrite Hnone in Ho ].
Qed.

(** The row of a run exists once its record is written, in the table
    [upgradeProcess]; the other rows and the other tables stay. *)
Lemma main_row_written w options store i :
  truthy (Orchestrator.id options) = Some i →
  rejects w AtCreateTable = None →
  rejects w AtInitRecord = None →
  let r := Orchestrator.main w options (Orchestrator.start store) in
  let o := Orchestrator.owner options in
  tables r.2 !! Orchestrator.tableName = Some (ledger r.2)
  ∧ is_Some (ledger r.2 !! (o, i))
  ∧ (∀ k, k ≠ (o, i) → ledger r.2 !! k = rowsOf store Orchestrator.tableName !! k)
  ∧ (∀ name, name ≠ Orchestrator.tableName → tables r.2 !! name = store !! name)
  ∧ (∃ n, rowInt32 (ledger r.2) o i "lastStatus" = Some n ∧ (0 ≤ n ≤ 11)%Z)
  ∧ (∀ url, r.1 = Return url →
       rowInt32 (ledger r.2) o i "status" = Some (Status.toZ Status.done)).
Proof.
  intros Hid Hc Hi r o.
  remember r as r' eqn:H. subst r. symmetry in H.
  unfold_run H. with_id H Hid. rewrite Hc, Hi in H. cbn in H. explore H.
  all: subst r' o; cbn [fst snd tables trace setTables emit Orchestrator.start].
  all: split; [ read_ledger; apply lookup_insert_eq | ].
  all: split;
    [ read_ledger; unfold mergeRow; rewrite lookup_insert_eq; by eexists | ].
  all: split;
    [ read_ledger; intros k Hk;
      assert ((Orchestrator.owner options, i) ≠ k) as Hk'
        by (intros Heq; apply Hk; symmetry; exact Heq);
      rewrite ?(lookup_mergeRow_ne _ _ _ _ Hk'), ?(lookup_insert_ne _ _ _ _ Hk');
      reflexivity | ].
  all: split;
    [ intros name Hname;
      assert (Orchestrator.tableName ≠ name) as Hname'
        by (intros Heq; apply Hname; symmetry; exact Heq);
      rewrite ?(lookup_insert_ne _ _ _ _ Hname'),
        ?(lookup_storeCreate_ne _ _ _ Hname);
      reflexivity | ].
  all: read_ledger.
  all: unfold rowInt32; rewrite ?rowProperty_mergeRow, ?rowProperty_insert.
  all: split;
    [ lazymatch goal with
      | |- ∃ n, ?a = Some n ∧ _ =>
          let va := eval vm_compute in a in
          lazymatch va with Some ?n0 => exists n0 end
      end;
      split; [ vm_compute; reflexivity | lia ]
    | intros url Hret;
      first [ discriminate Hret | vm_compute; reflexivity ] ].
Qed.

(** X16: a run followed by a status query on the same account.  When the
    status query is configured for the table the orchestrator writes to
    ([upgradeProcess]) and no other owner holds the run-id, the query
    for the run-id of a run whose record was written answers with the
    row of that run as the run left it, whether the run returned or
    threw: its [lastStatus] is one of [auth] to [done], and its [status]
    is [done] when the run returned.  When it is configured for another
    table, it answers as it did before the run: it does not see the
    run. *)
Theorem query_after_run w w' options taskTableName store i :
  truthy (Orchestrator.id options) = Some i →
  rejects w AtCreateTable = None →
  rejects w AtInitRecord = None →
  rejects w' AtQuery = None →
  (∀ o', o' ≠ Orchestrator.owner options →
         rowsOf store Orchestrator.tableName !! (o', i) = None) →
  let r := Orchestrator.main w options (Orchestrator.start store) in
  let q := StatusQuery.httpTrigger w' taskTableName i (Orchestrator.start (tables r.2)) in
  (taskTableName = Orchestrator.tableName →
     ∃ e, q.1 = Return (Some e)
          ∧ ledger r.2 !! (Orchestrator.owner options, i) = Some e
          ∧ (∃ n, int32Property e "lastStatus" = Some n ∧ (0 ≤ n ≤ 11)%Z)
          ∧ (∀ url, r.1 = Return url →
               int32Property e "status" = Some (Status.toZ Status.done)))
  ∧ (taskTableName ≠ Orchestrator.tableName →
       q.1 = (StatusQuery.httpTrigger w' taskTableName i (Orchestrator.start store)).1).
Proof.
  intros Hid Hc Hi Hq Hothers r q.
  destruct (main_row_written w options store i Hid Hc Hi)
    as (Htable & [e He] & Hframe & Htables & (n & Hn & Hrange) & Hdone).
  fold r in Htable, He, Hframe, Htables, Hn, Hdone.
  subst q. rewrite !(httpTrigger_answer _ _ _ _ Hq). cbn [fst].
  split.
  - intros ->. rewrite Htable. exists e.
    split.
    { rewrite (storeQueryRowKey_single _ _ (Orchestrator.owner options) e He);
        [ done | ].
      intros o' Ho'. rewrite Hframe; [ by apply Hothers | ].
      intros [= ?]. by apply Ho'. }
    split; [ exact He | ].
    unfold rowInt32, rowProperty in Hn, Hdone. rewrite He in Hn, Hdone.
    split.
    + exists n. split; [ exact Hn | exact Hrange ].
    + intros url Hret. exact (Hdone url Hret).
  - intros Hname. by rewrite (Htables _ Hname).
Qed.

Lemma query_after_run_witness :
  let r := Orchestrator.main Scenario.transformationThrows
             (Scenario.acme (Some "r1")) (Orchestrator.start ∅) in
  (∃ e, (StatusQuery.httpTrigger Scenario.allGood "upgradeProcess" "r1"
           (Orchestrator.start (tables r.2))).1 = Return (Some e)
        ∧ ledger r.2 !! ("acme", "r1") = Some e)
  ∧ (StatusQuery.httpTrigger Scenario.allGood "tasks" "r1"
       (Orchestrator.start (tables r.2))).1 = Throw tableNotFound.
Proof.
  intros r.
  assert (∀ o', o' ≠ "acme" →
                rowsOf (∅ : TableStore) Orchestrator.tableName !! (o', "r1") = None)
    as Hothers by (intros o' _; apply lookup_empty).
  destruct (query_after_run Scenario.transformationThrows Scenario.allGood
              (Scenario.acme (Some "r1")) "upgradeProcess" ∅ "r1"
              eq_refl eq_refl eq_refl eq_refl Hothers)
    as [Hsame _].
  destruct (query_after_run Scenario.transformationThrows Scenario.allGood
              (Scenario.acme (Some "r1")) "tasks" ∅ "r1"
              eq_refl eq_refl eq_refl eq_refl Hothers)
    as [_ Hother].
  split.
  - destruct (Hsame eq_refl) as (e & Hq & Hrow & _).
    exists e. split; [ exact Hq | exact Hrow ].
  - etrans; [ apply Hother; discriminate | vm_compute; reflexivity ].
Defined.
(** ** The truncated tree identifier *)

Lemma substring_0_cons n a s :
  String.substring 0 (S n) (String a s) = String a (String.substring 0 n s).
Proof. reflexivity. Qed.

Lemma substring_0_empty n : String.substring 0 n EmptyString = EmptyString.
Proof. by destruct n. Qed.

Lemma substring_0_zero s : String.substring 0 0 s = EmptyString.
Proof. by destruct s. Qed.

Lemma substring_0_length n s :
  String.length (String.substring 0 n s) = Nat.min n (String.length s).
Proof.
  revert s. induction n as [|n IH]; intros [|a s];
    rewrite ?substring_0_empty, ?substring_0_zero, ?substring_0_cons;
    cbn; try reflexivity.
  by rewrite IH.
Qed.

Lemma substring_0_prefix n s :
  String.prefix (String.substring 0 n s) s = true.
Proof.
  revert s. induction n as [|n IH]; intros [|a s];
    rewrite ?substring_0_empty, ?substring_0_zero, ?substring_0_cons;
    cbn; try reflexivity.
  destruct (Ascii.ascii_dec a a) as [_|Hne]; [ apply IH | by destruct Hne ].
Qed.

Lemma substring_0_short n s :
  (String.length s ≤ n)%nat → String.substring 0 n s = s.
Proof.
  revert s. induction n as [|n IH]; intros [|a s] Hlen;
    rewrite ?substring_0_empty, ?substring_0_zero, ?substring_0_cons;
    cbn in Hlen; try reflexivity; try lia.
  f_equal. apply IH. lia.
Qed.

(** X17: [sha.slice(0, 8)] of a defined tree identifier never throws and
    changes nothing; it gives a beginning of the identifier, of 8
    characters, or the whole identifier when that is shorter.  So the
    working branch name has at most 22 characters. *)
Theorem slice_0_8_is_a_prefix s st :
  ∃ hash8,
    Orchestrator.slice_0_8 (Some s) st = (Return hash8, st)
    ∧ String.prefix hash8 s = true
    ∧ String.length hash8 = Nat.min 8 (String.length s)
    ∧ ((String.length s ≤ 8)%nat → hash8 = s)
    ∧ (String.length ("ts-upgrade-at-" +:+ hash8) ≤ 22)%nat.
Proof.
  exists (String.substring 0 8 s).
  split; [ reflexivity | ].
  split; [ apply substring_0_prefix | ].
  split; [ apply substring_0_length | ].
  split; [ apply substring_0_short | ].
  change (String.length ("ts-upgrade-at-" +:+ String.substring 0 8 s))
    with (14 + String.length (String.substring 0 8 s))%nat.
  rewrite substring_0_length. lia.
Qed.
